(** * BorIS reporting: a shallow embedding of the report generators

    The development follows [boris/reporting/reports/hygiene.py],
    [boris/reporting/reports/council.py] and the aggregate helpers of
    [boris/services/models/basic.py].  The relational store is a record of
    tables (lists of rows), a Django [filter] over a [filtering] dictionary is a list of
    lookups evaluated against every row, Python sets are [gset Z] and the
    dictionary [encounter_data] is a [gmap].  Database look-ups made inside
    the hygiene loop are effects: they are logged and may raise. *)

From Stdlib Require Import ZArith List String Ascii Lia QArith Qround.
From stdpp Require Import base numbers list gmap sets strings.
Import ListNotations.
Open Scope Z_scope.

(** ** Dates and their textual form *)

Module Dates.

(** [datetime.date]; Python keeps 1 <= year <= 9999. *)
Record date := Date { year : Z; month : Z; day : Z }.

(** [datetime.time] restricted to whole seconds. *)
Record time := Time { hour : Z; minute : Z; second : Z }.

(** [datetime.datetime] with microsecond = 0. *)
Record datetime := DateTime { dt_date : date; dt_time : time }.

Definition combine (d : date) (t : time) : datetime := DateTime d t.

(** [time(0)] and [time(23, 59, 59)]. *)
Definition time_0 : time := Time 0 0 0.
Definition time_23_59_59 : time := Time 23 59 59.

Definition date_max : date := Date 9999 12 31.

Definition date_eqb (a b : date) : bool :=
  (year a =? year b) && (month a =? month b) && (day a =? day b).

Definition date_ltb (a b : date) : bool :=
  (year a <? year b)
  || ((year a =? year b)
      && ((month a <? month b)
          || ((month a =? month b) && (day a <? day b)))).

Definition date_leb (a b : date) : bool := negb (date_ltb b a).

(** Python's [min(a, b)]: [b] only when it is strictly smaller. *)
Definition date_min (a b : date) : date := if date_ltb b a then b else a.

(** A [DateField] look-up given a [datetime] compares its date part
    ([DateField.to_python] calls [value.date()]). *)
Definition to_date (dt : datetime) : date := dt_date dt.

(** One decimal digit, the last of [n]. *)
Definition digit (n : Z) : ascii := ascii_of_nat (48 + Z.to_nat (n mod 10)).

Definition pad2 (n : Z) : string :=
  String (digit (n / 10)) (String (digit n) EmptyString).

Definition pad4 (n : Z) : string :=
  String (digit (n / 1000)) (String (digit (n / 100)) (pad2 n)).

(** [str(d)] for a date: ISO [YYYY-MM-DD]. *)
Definition str_date (d : date) : string :=
  (pad4 (year d) ++ "-" ++ pad2 (month d) ++ "-" ++ pad2 (day d))%string.

Definition str_time (t : time) : string :=
  (pad2 (hour t) ++ ":" ++ pad2 (minute t) ++ ":" ++ pad2 (second t))%string.

(** [str(dt)], what ['%s' % dt] inserts: [YYYY-MM-DD HH:MM:SS]. *)
Definition str_datetime (dt : datetime) : string :=
  (str_date (dt_date dt) ++ " " ++ str_time (dt_time dt))%string.

(** [s.replace(old, new)] for one-character [old] and [new]. *)
Fixpoint replace (old new : ascii) (s : string) : string :=
  match s with
  | EmptyString => EmptyString
  | String c s' =>
      String (if Ascii.eqb c old then new else c) (replace old new s')
  end.

(** Occurrence of a character in a string. *)
Fixpoint occurs (c : ascii) (s : string) : bool :=
  match s with
  | EmptyString => false
  | String c' s' => Ascii.eqb c' c || occurs c s'
  end.

End Dates.
Export Dates.

(** ** [boris.classification]

    The module is imported by the reports but its constants are
    [Choices] objects defined elsewhere; their integer values are taken
    as parameters, recorded here field by field. *)

Module Classification.

Record RISKY_BEHAVIOR_PERIODICITY_t := {
  NEVER : Z; ONCE : Z; OFTEN : Z
}.

Record RISKY_BEHAVIOR_KIND_t := {
  INTRAVENOUS_APPLICATION : Z; SYRINGE_SHARING : Z
}.

Record DRUGS_t := {
  HEROIN : Z; SUBUTEX_LEGAL : Z; SUBUTEX_ILLEGAL : Z; SUBOXONE : Z;
  METHADONE : Z; VENDAL : Z; RAW_OPIUM : Z; BRAUN : Z;
  METHAMPHETAMINE : Z; COCAINE : Z; THC : Z; ECSTASY : Z;
  LSD : Z; PSYLOCIBE : Z; INHALER_DRUGS : Z;
  DESIGNER_DRUGS : Z; MEDICAMENTS : Z;
  ALCOHOL : Z; TOBACCO : Z;
  PATHOLOGICAL_GAMBLING : Z; OTHER_NON_SUBSTANCE_ADDICTION : Z
}.

Record SEXES_t := { MALE : Z; FEMALE : Z }.

Record DRUG_APPLICATION_TYPES_t := {
  VEIN_INJECTION : Z; MUSCLE_INJECTION : Z
}.

Record DISEASES_t := { HIV : Z; VHC : Z; VHB : Z; SYFILIS : Z }.

(** A [Choices] object gives every name its own value. *)
Definition periodicity_distinct (p : RISKY_BEHAVIOR_PERIODICITY_t) : Prop :=
  NoDup [NEVER p; ONCE p; OFTEN p].

(** The drugs named in rows 1.1 to 1.11 of the clients table. *)
Definition group1_drugs (D : DRUGS_t) : list Z :=
  [HEROIN D; SUBUTEX_LEGAL D; SUBUTEX_ILLEGAL D; SUBOXONE D;
   METHADONE D; VENDAL D; RAW_OPIUM D; BRAUN D;
   METHAMPHETAMINE D; COCAINE D; THC D; ECSTASY D;
   LSD D; PSYLOCIBE D; INHALER_DRUGS D;
   DESIGNER_DRUGS D; MEDICAMENTS D].

Definition drugs_distinct (D : DRUGS_t) : Prop := NoDup (group1_drugs D).

End Classification.
Export Classification.

(** ** The relational schema read by the reports *)

Module Schema.

(** [boris.services.models]: the service classes named by the reports.
    A service row carries its class as [content_type]. *)
Inductive ServiceCls :=
| Address | ContactWork | IncomeFormFillup | IndividualCounselling
| CrisisIntervention | SocialWork | HarmReduction | BasicMedicalTreatment
| InformationService | IncomeExamination | DiseaseTest | HygienicService
| FoodService | WorkTherapy | PostUsage | UrineTest | GroupCounselling
| WorkWithFamily | WorkTherapyMeeting | UtilityWork | AsistService.

#[export] Instance ServiceCls_eq_dec : EqDecision ServiceCls.
Proof. solve_decision. Defined.

Record Client := {
  client_pk : Z;
  sex : Z;
  birthdate : option date;
  primary_drug : option Z;
  primary_drug_usage : option Z;
  close_person : bool;
  sex_partner : bool
}.

Record Encounter := {
  encounter_id : Z;
  person_id : Z;
  performed_on : date;
  where_ : Z;
  is_by_phone : bool
}.

(** One row per performed service; the subtype fields the reports read
    ([HarmReduction.in_count], [out_count], [DiseaseTest.disease],
    [UrineTest.pregnancy_test], [drug_test]) are columns of the row. *)
Record Service := {
  service_id : Z;
  content_type : ServiceCls;
  encounter : Z;
  in_count : Z;
  out_count : Z;
  disease : option Z;
  pregnancy_test : bool;
  drug_test : bool
}.

Record SyringeCollection := {
  sc_date : date;
  sc_town : Z;
  sc_count : Z
}.

Record Anamnesis := {
  anamnesis_id : Z;
  client_id : Z
}.

(** A periodicity column holds an integer or NULL. *)
Record RiskyManners := {
  rm_anamnesis : Z;
  behavior : Z;
  periodicity_in_present : option Z;
  periodicity_in_past : option Z
}.

Record DB := {
  Town_objects : list Z;
  Anonymous_objects : list Z;
  Client_objects : list Client;
  Encounter_objects : list Encounter;
  Service_objects : list Service;
  SyringeCollection_objects : list SyringeCollection;
  Anamnesis_objects : list Anamnesis;
  RiskyManners_objects : list RiskyManners
}.

(** Membership test for [__in] look-ups. *)
Definition mem (x : Z) (l : list Z) : bool := existsb (Z.eqb x) l.

(** Truth value of a Python list or queryset: non-empty. *)
Definition truthy {A} (l : list A) : bool :=
  match l with [] => false | _ :: _ => true end.

(** Keyword look-ups on [Encounter] used in the [filtering]
    dictionaries.  On [Service] the same keys appear behind the
    [encounter__] prefix. *)
Inductive EncounterLookup :=
| performed_on__gte (d : datetime)
| performed_on__lte (d : datetime)
| performed_on__lt (d : datetime)
| where__in (towns : list Z)
| person__in (persons : list Z)
| is_by_phone_is (b : bool)
| id__in (ids : list Z).

Definition encounter_matches (e : Encounter) (l : EncounterLookup) : bool :=
  match l with
  | performed_on__gte d => date_leb (to_date d) (performed_on e)
  | performed_on__lte d => date_leb (performed_on e) (to_date d)
  | performed_on__lt d => date_ltb (performed_on e) (to_date d)
  | where__in towns => mem (where_ e) towns
  | person__in persons => mem (person_id e) persons
  | is_by_phone_is b => Bool.eqb (is_by_phone e) b
  | id__in ids => mem (encounter_id e) ids
  end.

Definition encounter_passes (filtering : list EncounterLookup)
    (e : Encounter) : bool :=
  forallb (encounter_matches e) filtering.

(** [Encounter.objects.filter(filtering)]. *)
Definition Encounter_filter (db : DB) (filtering : list EncounterLookup)
    : list Encounter :=
  List.filter (encounter_passes filtering) (Encounter_objects db).

(** The encounter a service row joins to. *)
Definition encounter_of (db : DB) (s : Service) : option Encounter :=
  List.find (fun e => encounter_id e =? encounter s) (Encounter_objects db).

(** A service passes [encounter__...] look-ups when the joined
    encounter does; a row without encounter joins to nothing. *)
Definition service_passes (db : DB) (filtering : list EncounterLookup)
    (s : Service) : bool :=
  match encounter_of db s with
  | Some e => encounter_passes filtering e
  | None => false
  end.

(** [service_cls.objects.filter(filtering)]. *)
Definition Service_filter (db : DB) (service_cls : ServiceCls)
    (filtering : list EncounterLookup) : list Service :=
  List.filter
    (fun s => bool_decide (content_type s = service_cls)
              && service_passes db filtering s)
    (Service_objects db).

(** [qs.values_list('encounter__person_id', flat=True)]. *)
Definition encounter__person_ids (db : DB) (qs : list Service) : list Z :=
  flat_map (fun s => match encounter_of db s with
                     | Some e => [person_id e]
                     | None => []
                     end) qs.

(** Look-ups on [SyringeCollection]. *)
Inductive SyringeLookup :=
| date__gte (d : datetime)
| date__lte (d : datetime)
| town__in (towns : list Z).

Definition syringe_matches (c : SyringeCollection) (l : SyringeLookup)
    : bool :=
  match l with
  | date__gte d => date_leb (to_date d) (sc_date c)
  | date__lte d => date_leb (sc_date c) (to_date d)
  | town__in towns => mem (sc_town c) towns
  end.

Definition SyringeCollection_filter (db : DB)
    (filtering : list SyringeLookup) : list SyringeCollection :=
  List.filter (fun c => forallb (syringe_matches c) filtering)
              (SyringeCollection_objects db).

(** Sum of a list of integers. *)
Definition zsum (l : list Z) : Z := fold_right Z.add 0 l.

(** [aggregate(Sum(field))]: NULL over no rows. *)
Definition aggregate_Sum (values : list Z) : option Z :=
  match values with
  | [] => None
  | _ :: _ => Some (zsum values)
  end.

(** [aggregate(Max(field))]. *)
Definition aggregate_Max (values : list Z) : option Z :=
  match values with
  | [] => None
  | v :: vs => Some (fold_right Z.max v vs)
  end.

(** [aggregate(Avg(field))], the average kept as an exact fraction. *)
Definition aggregate_Avg (values : list Z) : option Q :=
  match values with
  | [] => None
  | _ :: _ => Some (Qmake (zsum values) (Pos.of_nat (length values)))
  end.

End Schema.
Export Schema.

(** ** Python values and exceptions shared by the reports *)

Module Py.

(** A table cell: an integer, a text, or [None]. *)
Inductive Cell :=
| Int (z : Z)
| Str (s : string)
| PyNone.

Definition of_option (o : option Z) : Cell :=
  match o with Some z => Int z | None => PyNone end.

Inductive Exc :=
| ZeroDivisionError
| KeyError (key : Z)
| MultipleObjectsReturned.

(** Outcome of an expression that may raise. *)
Inductive result (A : Type) :=
| Ok (a : A)
| Raise (e : Exc).
Arguments Ok {A} a.
Arguments Raise {A} e.

#[export] Instance result_ret : MRet result := @Ok.

#[export] Instance result_bind : MBind result := λ A B f r,
  match r with
  | Ok a => f a
  | Raise e => Raise e
  end.

(** [len] as a Python integer. *)
Definition len {A} (l : list A) : Z := Z.of_nat (length l).

(** [a / b] on floats, kept as an exact fraction: a sum of ages is far
    below 2^52, where the double nearest to the quotient rounds to the
    same integer as the quotient itself. *)
Definition float_div (a b : Q) : result Q :=
  if Qeq_bool b 0 then Raise ZeroDivisionError else Ok (a / b)%Q.

(** Python 2 [round]: to the nearest integer, halves away from zero. *)
Definition round (q : Q) : Z :=
  if Qle_bool 0 q then Qfloor (q + (1 # 2)) else - Qfloor (- q + (1 # 2)).

(** [x or 0] for an integer aggregate. *)
Definition or_0 (x : option Z) : Z :=
  match x with
  | Some v => if v =? 0 then 0 else v
  | None => 0
  end.

(** [x or 0] for a fractional aggregate. *)
Definition or_0_Q (x : option Q) : Q :=
  match x with
  | Some v => if Qeq_bool v 0 then 0%Q else v
  | None => 0%Q
  end.

End Py.
Export Py.

(** ** [boris/services/models/basic.py]: aggregate helpers *)

Module Basic.

Section Stats.
Context (db : DB).

(** [model.objects.filter(filtering)] with the dictionary given as a
    row predicate. *)
Definition objects_filter (model : ServiceCls)
    (filtering : Service -> bool) : list Service :=
  List.filter (fun s => bool_decide (content_type s = model) && filtering s)
              (Service_objects db).

Definition _sum_int (model : ServiceCls) (filtering : Service -> bool)
    (field : Service -> Z) : Z :=
  or_0 (aggregate_Sum (map field (objects_filter model filtering))).

Definition _max_int (model : ServiceCls) (filtering : Service -> bool)
    (field : Service -> Z) : Z :=
  or_0 (aggregate_Max (map field (objects_filter model filtering))).

Definition _avg_int (model : ServiceCls) (filtering : Service -> bool)
    (field : Service -> Z) : Q :=
  or_0_Q (aggregate_Avg (map field (objects_filter model filtering))).

End Stats.

End Basic.

(** ** [boris/reporting/reports/council.py]: [GovCouncilReport] *)

Module Council.

Record GovCouncilReport := {
  datetime_from : datetime;
  datetime_to : datetime;
  kind : string;
  towns : list Z
}.

Definition __init__ (date_from date_to : date) (kind : Z) (towns : list Z)
    : GovCouncilReport :=
  {| datetime_from := combine date_from time_0;
     datetime_to := combine date_to time_23_59_59;
     kind := if kind =? 1 then "clients" else "services";
     towns := towns |}.

Definition get_filename (self : GovCouncilReport) : string :=
  if String.eqb (kind self) "clients" then "RVKPP_klienti.xls"
  else "RVKPP_vykony.xls".

Section Queries.
Context (db : DB) (DRUGS : DRUGS_t) (SEXES : SEXES_t)
        (DRUG_APPLICATION_TYPES : DRUG_APPLICATION_TYPES_t)
        (DISEASES : DISEASES_t).
(** [date.today().year] *)
Context (this_year : Z).
Context (self : GovCouncilReport).

(** *** Functions used for service-related computations *)

Definition _get_anonymous_ids : list Z := Anonymous_objects db.

(** The [if self.towns:] entry of a [filtering] dictionary. *)
Definition towns_entry : list EncounterLookup :=
  if truthy (towns self) then [where__in (towns self)] else [].

Definition _get_services (service_cls : ServiceCls) : list Service :=
  let filtering :=
    [performed_on__gte (datetime_from self);
     performed_on__lte (datetime_to self)] ++ towns_entry in
  Service_filter db service_cls filtering.

Definition _get_service_count (service_classes : list ServiceCls) : Z :=
  fold_left (fun res service_cls => res + len (_get_services service_cls))
            service_classes 0.

Definition _get_client_count (service_classes : list ServiceCls) : Z :=
  let person_ids :=
    fold_left (fun person_ids service_cls =>
                 person_ids
                 ++ encounter__person_ids db (_get_services service_cls))
              service_classes [] in
  let anonymous_ids := _get_anonymous_ids in
  Z.of_nat (size ((list_to_set person_ids : gset Z)
                  ∖ list_to_set anonymous_ids)).

Definition _get_queryset_client_count (qs : list Service) : Z :=
  let person_ids := encounter__person_ids db qs in
  let anonymous_ids := _get_anonymous_ids in
  Z.of_nat (size ((list_to_set person_ids : gset Z)
                  ∖ list_to_set anonymous_ids)).

Definition _get_anonymous_count (service_cls : ServiceCls) : Z :=
  let anonymous_ids := _get_anonymous_ids in
  let filtering :=
    [performed_on__gte (datetime_from self);
     performed_on__lte (datetime_to self);
     person__in anonymous_ids] ++ towns_entry in
  len (Service_filter db service_cls filtering).

Definition syringes_filtering : list SyringeLookup :=
  [date__gte (datetime_from self); date__lte (datetime_to self)]
  ++ (if truthy (towns self) then [town__in (towns self)] else []).

Definition _get_syringes_count : option Z :=
  aggregate_Sum
    (map sc_count (SyringeCollection_filter db syringes_filtering)).

Definition __get_client_encounters (filtering : list EncounterLookup)
    : list Encounter :=
  let filtering :=
    filtering
    ++ [performed_on__gte (datetime_from self);
        performed_on__lte (datetime_to self)]
    ++ towns_entry in
  List.filter (fun e => negb (mem (person_id e) _get_anonymous_ids))
              (Encounter_filter db filtering).

Definition _get_direct_client_encounters : list Encounter :=
  __get_client_encounters [is_by_phone_is false].

Definition _get_phone_client_encounters : list Encounter :=
  __get_client_encounters [is_by_phone_is true].

Definition _get_phone_advice_count : Z :=
  let encounter_ids :=
    fold_left (fun (ids : gset Z) cls =>
                 ids ∪ list_to_set (map encounter (_get_services cls)))
              [SocialWork; IndividualCounselling; InformationService] ∅ in
  len (Encounter_filter db
         [is_by_phone_is true; id__in (elements encounter_ids)]).

Definition disease_is (d : Z) (s : Service) : bool :=
  match disease s with Some x => x =? d | None => false end.

Definition _get_performed_tests_count (disease : Z) : Z :=
  len (List.filter (disease_is disease) (_get_services DiseaseTest)).

Definition _get_tested_clients_count (disease : Z) : Z :=
  let person_ids :=
    encounter__person_ids db
      (List.filter (disease_is disease) (_get_services DiseaseTest)) in
  let anonymous_ids := _get_anonymous_ids in
  Z.of_nat (size ((list_to_set person_ids : gset Z)
                  ∖ list_to_set anonymous_ids)).

(** *** Functions used for client-related computations *)

Definition period_filtering : list EncounterLookup :=
  [performed_on__gte (datetime_from self);
   performed_on__lte (datetime_to self)] ++ towns_entry.

Definition has_primary_drug (c : Client) : bool :=
  match primary_drug c with Some _ => true | None => false end.

Definition primary_drug__in (drugs : list Z) (c : Client) : bool :=
  match primary_drug c with Some d => mem d drugs | None => false end.

Definition _get_all_drug_users : list Client :=
  let encounters := Encounter_filter db period_filtering in
  let clients := map person_id encounters in
  List.filter has_primary_drug
    (List.filter (fun c => mem (client_pk c) clients) (Client_objects db)).

Definition _get_clients_non_drug_users : list Client :=
  let encounters := Encounter_filter db period_filtering in
  let clients := map person_id encounters in
  List.filter (fun c => close_person c || sex_partner c)
    (List.filter (fun c => mem (client_pk c) clients) (Client_objects db)).

Definition _get_primary_drug_users (drugs : list Z) : list Client :=
  let clients := _get_all_drug_users in
  List.filter (primary_drug__in drugs) clients.

Definition _get_average_age (clients : list Client) : result Z :=
  let years :=
    flat_map (fun c => match birthdate c with
                       | Some b => [year b]
                       | None => []
                       end) clients in
  let ages := map (fun year => this_year - year) years in
  if truthy ages then
    q ← float_div (inject_Z (zsum ages)) (inject_Z (len ages));
    mret (round q)
  else mret 0.

(** *** The data tables *)

Definition sex_is (x : Z) (c : Client) : bool := sex c =? x.

Definition primary_drug_usage__in (usages : list Z) (c : Client) : bool :=
  match primary_drug_usage c with Some u => mem u usages | None => false end.

(** Rows of the clients table: (id, label, client count). *)
Definition _get_data_clients : result (list (string * string * Cell)) :=
  let drug := fun drugs => len (_get_primary_drug_users drugs) in
  let non_alcohol_users :=
    List.filter
      (fun c => negb (primary_drug__in [ALCOHOL DRUGS; TOBACCO DRUGS] c))
      _get_all_drug_users in
  let alcohol_users := _get_primary_drug_users [ALCOHOL DRUGS] in
  let tobacco_users := _get_primary_drug_users [TOBACCO DRUGS] in
  let non_drug_users := _get_clients_non_drug_users in
  let non_substance_users :=
    _get_primary_drug_users
      [PATHOLOGICAL_GAMBLING DRUGS; OTHER_NON_SUBSTANCE_ADDICTION DRUGS] in
  age_1_13 ← _get_average_age non_alcohol_users;
  age_2_2 ← _get_average_age alcohol_users;
  age_3_2 ← _get_average_age tobacco_users;
  age_4_4 ← _get_average_age non_substance_users;
  mret
    [("TP - terénní programy", "", Str "");
     ("skupina 1", "Klienti - uživatelé drog, kromě alkoholu (sk. 2) a tabáku (sk. 3)", Str "");
     ("1.1", "základní droga heroin",
      Int (drug [HEROIN DRUGS]));
     ("1.2", "základní droga buprenorfin - zneužívaný (non lege artis, injekčně, bez indikace lékařem, z černého trhu atd.)",
      Int (drug [SUBUTEX_LEGAL DRUGS; SUBUTEX_ILLEGAL DRUGS; SUBOXONE DRUGS]));
     ("1.3", "základní droga metadon - zneužívaný (non lege artis, injekčně, bez indikace lékařem, z černého trhu atd.)",
      Int (drug [METHADONE DRUGS]));
     ("1.4", "základní droga jiné opiáty (opium, morfium, fentanyl, tramadol etc.)",
      Int (drug [VENDAL DRUGS; RAW_OPIUM DRUGS; BRAUN DRUGS]));
     ("1.5", "základní droga pervitin",
      Int (drug [METHAMPHETAMINE DRUGS]));
     ("1.6", "základní droga kokain/crack",
      Int (drug [COCAINE DRUGS]));
     ("1.7", "základní droga kanabinoidy",
      Int (drug [THC DRUGS]));
     ("1.8", "základní droga extáze",
      Int (drug [ECSTASY DRUGS]));
     ("1.9", "základní droga halucinogeny",
      Int (drug [LSD DRUGS; PSYLOCIBE DRUGS]));
     ("1.10", "základní droga těkavé látky",
      Int (drug [INHALER_DRUGS DRUGS]));
     ("1.11", "jiná základní droga, kromě alkoholu a tabáku",
      Int (drug [DESIGNER_DRUGS DRUGS; MEDICAMENTS DRUGS]));
     ("1.12", "celkem klientů - uživatelů drog ",
      Int (len non_alcohol_users));
     ("1.12.1", "z toho mužů",
      Int (len (List.filter (sex_is (MALE SEXES)) non_alcohol_users)));
     ("1.12.2", "z toho injekčních uživatelů drog",
      Int (len (List.filter
                (primary_drug_usage__in
                   [VEIN_INJECTION DRUG_APPLICATION_TYPES;
                    MUSCLE_INJECTION DRUG_APPLICATION_TYPES])
                non_alcohol_users)));
     ("1.13", "průměrný věk klientů - uživatelů drog",
      Int age_1_13);
     ("skupina 2", "Klienti se základní drogou alkohol", Str "");
     ("2.1", "celkem klientů se základní drogou alkohol",
      Int (len alcohol_users));
     ("2.1.1", "z toho mužů",
      Int (len (List.filter (sex_is (MALE SEXES)) alcohol_users)));
     ("2.2", "průměrný věk klientů se základní drogou alkohol",
      Int age_2_2);
     ("skupina 3", "Klienti se základní drogou tabák", Str "");
     ("3.1", "celkem klientů se základní drogou tabák",
      Int (len tobacco_users));
     ("3.1.1", "z toho mužů",
      Int (len (List.filter (sex_is (MALE SEXES)) tobacco_users)));
     ("3.2", "průměrný věk klientů se základní drogou tabák",
      Int age_3_2);
     ("skupina 4", "Klienti s diagnózou z oblasti nelátkových závislostí", Str "");
     ("4.1", "počet klientů s diagnózou patologické hráčství",
      Int (drug [PATHOLOGICAL_GAMBLING DRUGS]));
     ("4.2", "počet klientů s jinou nelátkovou závislostí",
      Int (drug [OTHER_NON_SUBSTANCE_ADDICTION DRUGS]));
     ("4.3", "celkem klientů s diagnózou z oblasti nelátkových závislostí",
      Int (len non_substance_users));
     ("4.3.1", "z toho mužů",
      Int (len (List.filter (sex_is (MALE SEXES)) non_substance_users)));
     ("4.4", "průměrný věk klientů s diagnózou z oblasti nelátkových závislostí",
      Int age_4_4);
     ("skupina 5", "Identifikovaní klienti programu celkem", Str "");
     ("5.1", "Celkem  všech klientů, uživatelů",
      Int (len _get_all_drug_users));
     ("5.1.1", "z toho prvních kontaktů",
      Int (_get_client_count [IncomeExamination]));
     ("5.2", "Celkem ostatních klientů (neuživatelé, rodinní příslušníci, blízcí osob se závislostním problémem)",
      Int (len non_drug_users));
     ("5.3", "Celkem všech klientů (uživatelů i neuživatelů)",
      Int (len non_drug_users + len _get_all_drug_users));
     ("skupina 6", "Neidentifikovaní klienti", Str "");
     ("6.1", "odhad počtu neidentifikovaných klientů se základní drogou opiáty",
      Str "");
     ("6.2", "odhad počtu neidentifikovaných klientů s základní drogou pervitin",
      Str "");
     ("6.3", "odhad počtu neidentifikovaných klientů - injekčních uživatelů drog",
      Str "");
     ("skupina 7", "Klienti ve zprostředkovaném kontaktu", Str "");
     ("7.1", "Odhad počtu klientů ve zprostředkovaném kontaktu",
      Str "")].

(** Rows of the services table: (service name, persons count,
    services count). *)
Definition _get_data_services : list (string * Cell * Cell) :=
  let services := _get_service_count in
  let clients := _get_client_count in
  let anon := _get_anonymous_count in
  let harm_reductions := _get_services HarmReduction in
  let direct_client_encounters := _get_direct_client_encounters in
  let phone_client_encounters := _get_phone_client_encounters in
  let directly_encountered_clients_count :=
    Z.of_nat (size (list_to_set (map person_id direct_client_encounters)
                    : gset Z)) in
  let phone_encountered_clients_count :=
    Z.of_nat (size (list_to_set (map person_id phone_client_encounters)
                    : gset Z)) in
  let pregnancy_test_services :=
    List.filter pregnancy_test (_get_services UrineTest) in
  let drug_test_services :=
    List.filter drug_test (_get_services UrineTest) in
  [("Celkový počet přímých kontaktů s klienty",
      Int directly_encountered_clients_count,
      Int (len direct_client_encounters));
   ("Celkový počet nepřímých kontaktů s identifikovanými klienty",
      Int phone_encountered_clients_count,
      Int (len phone_client_encounters));
   ("Úkony potřebné pro zajištění přímé práce s klientem",
      Str "xxx", Int (services [Address]));
   ("Kontaktní práce",
      Int (clients [ContactWork] + anon ContactWork),
      Int (services [ContactWork]));
   ("Vstupní zhodnocení stavu klienta",
      Int (clients [IncomeFormFillup]), Int (services [IncomeFormFillup]));
   ("Individuální poradenství",
      Int (clients [IndividualCounselling]), Int (services [IndividualCounselling]));
   ("Individuální psychoterapie",
      Str "", Str "");
   ("Skupinové poradenství",
      Int (clients [GroupCounselling]), Int (services [GroupCounselling]));
   ("Skupinová psychoterapie",
      Str "", Str "");
   ("Krizová intervence",
      Int (clients [CrisisIntervention]), Int (services [CrisisIntervention]));
   ("Rodinná terapie",
      Str "", Str "");
   ("Skupiny pro rodiče a osoby blízké klientovi",
      Str "", Str "");
   ("Pracovní terapie",
      Int (clients [WorkTherapy; WorkTherapyMeeting]), Int (services [WorkTherapy; WorkTherapyMeeting]));
   ("Sociální práce (odkazy, asistence, soc.-právní pomoc, case management)",
      Int (clients [SocialWork; AsistService; UtilityWork]),
      Int (services [SocialWork; AsistService; UtilityWork]));
   ("Práce s rodinou",
      Int (clients [WorkWithFamily]), Int (services [WorkWithFamily]));
   ("Socioterapie",
      Str "", Str "");
   ("Chráněná práce  / podporované zaměstnání",
      Str "", Str "");
   ("Psychiatrické vyšetření",
      Str "", Str "");
   ("Somatické vyšetření",
      Str "", Str "");
   ("Farmakoterapie",
      Str "", Str "");
   ("- z toho podání substituční látky",
      Str "", Str "");
   ("- z toho preskripce substituční látky",
      Str "", Str "");
   ("Základní zdravotní ošetření (vč. první pomoci)",
      Int (clients [BasicMedicalTreatment]), Int (services [BasicMedicalTreatment]));
   ("Telefonické, písemné a internetové poradenství",
      Str "xxx", Int _get_phone_advice_count);
   ("Korespondenční práce",
      Int (clients [PostUsage]), Int (services [PostUsage]));
   ("Informační servis",
      Int (clients [InformationService]),
      Int (services [InformationService] - anon InformationService));
   ("Edukativní program/beseda",
      Str "", Str "");
   ("Distribuce harm reduction materiálu",
      Int (clients [HarmReduction]), Int (services [HarmReduction]));
   ("Počet vydaných injekčních jehel a stříkaček (ks)",
      Str "xxx", of_option (aggregate_Sum (map out_count harm_reductions)));
   ("Počet přijatých injekčních jehel a stříkaček (ks)",
      Str "xxx", of_option (aggregate_Sum (map in_count harm_reductions)));
   ("Počet nalezených injekčních jehel a stříkaček (ks)",
      Str "xxx", of_option _get_syringes_count);
   ("Hygienický servis",
      Int (clients [HygienicService]), Int (services [HygienicService]));
   ("Potravinový servis",
      Int (clients [FoodService]), Int (services [FoodService]));
   ("Testování na inf. nemoci",
      Int (clients [DiseaseTest]), Int (services [DiseaseTest]));
   ("– z toho na HIV",
      Int (_get_tested_clients_count (HIV DISEASES)),
      Int (_get_performed_tests_count (HIV DISEASES)));
   ("– z toho na HCV",
      Int (_get_tested_clients_count (VHC DISEASES)),
      Int (_get_performed_tests_count (VHC DISEASES)));
   ("– z toho na HBV",
      Int (_get_tested_clients_count (VHB DISEASES)),
      Int (_get_performed_tests_count (VHB DISEASES)));
   ("– z toho na syfilis",
      Int (_get_tested_clients_count (SYFILIS DISEASES)),
      Int (_get_performed_tests_count (SYFILIS DISEASES)));
   ("Orientační test z moči na přítomnost drog",
      Int (_get_queryset_client_count drug_test_services),
      Int (len drug_test_services));
   ("Orientační test z moči - těhotenský test",
      Int (_get_queryset_client_count pregnancy_test_services),
      Int (len pregnancy_test_services));
   ("Vyšetření adiktologem při zahájení adiktologické péče (38021)",
      Str "", Str "");
   ("Vyšetření adiktologem kontrolní (39022)",
      Str "", Str "");
   ("Minimální kontakt adiktologa s pacientem (38023)",
      Str "", Str "");
   ("Adiktologická terapie individuální (38024)",
      Str "", Str "");
   ("Adiktologická terapie rodinná (38025)",
      Str "", Str "");
   ("Adiktologická terapie skupinová, typ I. pro skupinu max. 9 osob (38026)",
      Str "", Str "");
   ("Celkový čas všech poskytnutných výkonů",
      Int (directly_encountered_clients_count
           + phone_encountered_clients_count), Str "")].

End Queries.

End Council.

(** ** [boris/reporting/reports/hygiene.py]: [HygieneReport] *)

Module Hygiene.

Record HygieneReport := {
  datetime_from : datetime;
  datetime_to : datetime;
  towns : list Z;
  kind : string
}.

(** [towns or Town.objects.all()]: an empty choice means every town. *)
Definition __init__ (db : DB) (date_from date_to : date) (towns : list Z)
    (kind : Z) : HygieneReport :=
  {| datetime_from := combine date_from time_0;
     datetime_to := combine date_to time_23_59_59;
     towns := if truthy towns then towns else Town_objects db;
     kind := if kind =? 1 then "prevalence" else "incidence" |}.

Definition get_filename (self : HygieneReport) : string :=
  replace " " "_"
    (replace "-" "_"
       ("vystup_pro_hygienu_" ++ str_datetime (datetime_from self)
        ++ "_" ++ str_datetime (datetime_to self) ++ ".doc")%string).

(** *** Database access as an effect

    Every query sent while the list is built is appended to a log; a
    query may raise, and the log survives the exception. *)

Inductive Query :=
| Q_encounters
| Q_anamnesis
| Q_income_examination_exists (client : Z)
| Q_riskymanners_get (anamnesis : Z) (behavior : Z).

(** Exceptions of the loop: those of [Py.Exc], and
    [RiskyManners.DoesNotExist], the one the code catches. *)
Inductive Err :=
| DoesNotExist
| Uncaught (e : Exc).

Record M (A : Type) := MkM { run : list Query -> (Err + A) * list Query }.
Arguments MkM {A} run.
Arguments run {A} m log.

#[export] Instance M_ret : MRet M := λ A a, MkM (λ log, (inr a, log)).

#[export] Instance M_bind : MBind M := λ A B f m,
  MkM (λ log, match run m log with
              | (inr a, log') => run (f a) log'
              | (inl e, log') => (inl e, log')
              end).

Definition query (q : Query) : M unit := MkM (λ log, (inr tt, log ++ [q])).

Definition raise {A} (e : Err) : M A := MkM (λ log, (inl e, log)).

(** [try: body  except RiskyManners.DoesNotExist: handler] *)
Definition try_except_DoesNotExist {A} (body handler : M A) : M A :=
  MkM (λ log, match run body log with
              | (inl DoesNotExist, log') => run handler log'
              | other => other
              end).

(** The value of [encounter_data[person_id]]. *)
Record EncounterData := {
  first_encounter_date : date;
  objects : list Encounter
}.

(** The annotated anamnesis handed to the template.  An attribute the
    loop never sets is [None]. *)
Record Annotated := {
  anamnesis : Anamnesis;
  extra_first_encounter_date : date;
  extra_been_cured_before : bool;
  extra_intravenous_application : string;
  extra_syringe_sharing : option string
}.

Definition equals (x : option Z) (v : Z) : bool :=
  match x with Some y => y =? v | None => false end.

Definition is_in (x : option Z) (vs : list Z) : bool :=
  match x with Some y => mem y vs | None => false end.

Section Report.
Context (db : DB).
(** [Encounter.objects.first(year, towns)], a manager method defined
    outside the report module: first encounters in the given year and
    towns for all clients. *)
Context (Encounter_first : Z -> list Z -> list Encounter).
Context (p : RISKY_BEHAVIOR_PERIODICITY_t).
Context (RISKY_BEHAVIOR_KIND : RISKY_BEHAVIOR_KIND_t).
Context (self : HygieneReport).

(** One pass of [for e in encounters] over the dictionary. *)
Definition encounter_data_step (encounter_data : gmap Z EncounterData)
    (e : Encounter) : gmap Z EncounterData :=
  let d := default {| first_encounter_date := date_max; objects := [] |}
                   (encounter_data !! person_id e) in
  <[person_id e :=
      {| first_encounter_date :=
           date_min (first_encounter_date d) (performed_on e);
         objects := objects d ++ [e] |}]> encounter_data.

(** The encounters the report looks at: those of the date range and
    towns, of persons whose first encounter falls into the range. *)
Definition selected_encounters : list Encounter :=
  let encounters :=
    Encounter_first (year (dt_date (datetime_from self))) (towns self) in
  let encounters :=
    List.filter
      (encounter_passes [performed_on__gte (datetime_from self);
                         performed_on__lt (datetime_to self)])
      encounters in
  let clients := map person_id encounters in
  Encounter_filter db [performed_on__gte (datetime_from self);
                       performed_on__lt (datetime_to self);
                       where__in (towns self);
                       person__in clients].

Definition encounter_data : gmap Z EncounterData :=
  fold_left encounter_data_step selected_encounters ∅.

(** [Anamnesis.objects.filter(client__pk__in=encounter_data.keys())] *)
Definition _a : list Anamnesis :=
  List.filter (fun a => bool_decide (is_Some (encounter_data !! client_id a)))
              (Anamnesis_objects db).

(** [encounter_data[key]] *)
Definition getitem (key : Z) : M EncounterData :=
  match encounter_data !! key with
  | Some d => mret d
  | None => raise (Uncaught (KeyError key))
  end.

(** [Service.objects.filter(encounter__in=objects,
    content_type=IncomeExamination.real_content_type()).exists()] *)
Definition income_examination_exists (objects : list Encounter) : bool :=
  existsb (fun s => bool_decide (content_type s = IncomeExamination)
                    && mem (encounter s) (map encounter_id objects))
          (Service_objects db).

(** [a.riskymanners_set] *)
Definition riskymanners_set (a : Anamnesis) : list RiskyManners :=
  List.filter (fun r => rm_anamnesis r =? anamnesis_id a)
              (RiskyManners_objects db).

(** [a.riskymanners_set.get(behavior=b)]: the single matching row. *)
Definition riskymanners_get (a : Anamnesis) (b : Z) : M RiskyManners :=
  _ ← query (Q_riskymanners_get (anamnesis_id a) b);
  match List.filter (fun r => behavior r =? b) (riskymanners_set a) with
  | [] => raise DoesNotExist
  | [r] => mret r
  | _ :: _ :: _ => raise (Uncaught MultipleObjectsReturned)
  end.

(** Lines 82 to 94: information about risky behaviour. *)
Definition intravenous_application (a : Anamnesis) : M string :=
  try_except_DoesNotExist
    (ivrm ← riskymanners_get a (INTRAVENOUS_APPLICATION RISKY_BEHAVIOR_KIND);
     if equals (periodicity_in_present ivrm) (NEVER p)
        && equals (periodicity_in_past ivrm) (NEVER p)
     then mret "c"%string
     else if is_in (periodicity_in_present ivrm) [ONCE p; OFTEN p]
     then mret "b"%string
     else if equals (periodicity_in_present ivrm) (NEVER p)
             && is_in (periodicity_in_past ivrm) [ONCE p; OFTEN p]
     then mret "a"%string
     else mret "d"%string)
    (mret "d"%string).

(** Lines 96 to 114: information about syringe sharing. *)
Definition syringe_sharing (a : Anamnesis)
    (extra_intravenous_application : string) : M (option string) :=
  if String.eqb extra_intravenous_application "a"
     || String.eqb extra_intravenous_application "b"
  then
    try_except_DoesNotExist
      (ssrm ← riskymanners_get a (SYRINGE_SHARING RISKY_BEHAVIOR_KIND);
       let per := if String.eqb extra_intravenous_application "b"
                  then periodicity_in_present ssrm
                  else periodicity_in_past ssrm in
       if is_in per [ONCE p; OFTEN p] then mret (Some "yes"%string)
       else if equals per (NEVER p) then mret (Some "no"%string)
       else mret (Some "unknown"%string))
      (mret (Some "unknown"%string))
  else mret None.

(** The body of [for a in _a]; [None] is the [continue]. *)
Definition annotate (a : Anamnesis) : M (option Annotated) :=
  d ← getitem (client_id a);
  let extra_first_encounter_date := first_encounter_date d in
  d' ← getitem (client_id a);
  _ ← query (Q_income_examination_exists (client_id a));
  let extra_been_cured_before :=
    negb (income_examination_exists (objects d')) in
  if String.eqb (kind self) "incidence" && extra_been_cured_before
  then mret None
  else
    iv ← intravenous_application a;
    ss ← syringe_sharing a iv;
    mret (Some {| anamnesis := a;
                  extra_first_encounter_date := extra_first_encounter_date;
                  extra_been_cured_before := extra_been_cured_before;
                  extra_intravenous_application := iv;
                  extra_syringe_sharing := ss |}).

Fixpoint annotate_all (l : list Anamnesis) (_all : list Annotated)
    : M (list Annotated) :=
  match l with
  | [] => mret _all
  | a :: l' =>
      o ← annotate a;
      annotate_all l' (match o with
                       | Some r => _all ++ [r]
                       | None => _all
                       end)
  end.

Definition get_anamnesis_list : M (list Annotated) :=
  _ ← query Q_encounters;
  _ ← query Q_anamnesis;
  annotate_all _a [].

End Report.

End Hygiene.

(** ** Reading the tables, and the hygiene loop as the specification words it *)

Module Tables.

(** The value of the clients-table row with the given id. *)
Fixpoint row_value (code : string) (rows : list (string * string * Cell))
    : option Cell :=
  match rows with
  | [] => None
  | (c, _, v) :: rows' =>
      if String.eqb c code then Some v else row_value code rows'
  end.

(** The (persons count, services count) cells of a services-table row. *)
Fixpoint service_row (name : string) (rows : list (string * Cell * Cell))
    : option (Cell * Cell) :=
  match rows with
  | [] => None
  | (n, persons, services) :: rows' =>
      if String.eqb n name then Some (persons, services)
      else service_row name rows'
  end.

(** Ids of rows 1.1 to 1.11 of the clients table. *)
Definition per_drug_codes : list string :=
  ["1.1"; "1.2"; "1.3"; "1.4"; "1.5"; "1.6"; "1.7"; "1.8"; "1.9";
   "1.10"; "1.11"]%string.

(** The drug sets behind rows 1.1 to 1.11, in row order. *)
Definition per_drug_groups (D : DRUGS_t) : list (list Z) :=
  [[HEROIN D];
   [SUBUTEX_LEGAL D; SUBUTEX_ILLEGAL D; SUBOXONE D];
   [METHADONE D];
   [VENDAL D; RAW_OPIUM D; BRAUN D];
   [METHAMPHETAMINE D];
   [COCAINE D];
   [THC D];
   [ECSTASY D];
   [LSD D; PSYLOCIBE D];
   [INHALER_DRUGS D];
   [DESIGNER_DRUGS D; MEDICAMENTS D]].

(** Ages of the clients whose birthdate is known. *)
Definition known_ages (this_year : Z) (clients : list Client) : list Z :=
  map (fun c => this_year - match birthdate c with
                            | Some b => year b
                            | None => 0
                            end)
      (List.filter (fun c => bool_decide (is_Some (birthdate c))) clients).

(** Indicator of a client's primary drug lying in a group of drugs. *)
Definition hit (c : Client) (g : list Z) : Z :=
  match primary_drug c with
  | Some d => if mem d g then 1 else 0
  | None => 0
  end.

End Tables.
Export Tables.

Module HygieneSpec.
Import Hygiene.

(** The value and the queries of a computation started on an empty log. *)
Definition value {A} (m : M A) : Err + A := fst (run m []).
Definition trace {A} (m : M A) : list Query := snd (run m []).

(** A computation that only appends to the log. *)
Definition logs_only {A} (m : M A) : Prop :=
  ∀ log, run m log = (value m, log ++ trace m).

Section Worded.
Context (db : DB).
Context (Encounter_first : Z -> list Z -> list Encounter).
Context (p : RISKY_BEHAVIOR_PERIODICITY_t).
Context (RISKY_BEHAVIOR_KIND : RISKY_BEHAVIOR_KIND_t).
Context (self : HygieneReport).

(** The loop body as section 4.2 of the specification words it: the
    client is classified first, the incidence filter comes after. *)
Definition annotate_classify_then_filter (a : Anamnesis)
    : M (option Annotated) :=
  d ← getitem db Encounter_first self (client_id a);
  _ ← query (Q_income_examination_exists (client_id a));
  let been_cured_before :=
    negb (income_examination_exists db (objects d)) in
  iv ← intravenous_application db p RISKY_BEHAVIOR_KIND a;
  ss ← syringe_sharing db p RISKY_BEHAVIOR_KIND a iv;
  if String.eqb (kind self) "incidence" && been_cured_before
  then mret None
  else mret (Some {| anamnesis := a;
                     extra_first_encounter_date := first_encounter_date d;
                     extra_been_cured_before := been_cured_before;
                     extra_intravenous_application := iv;
                     extra_syringe_sharing := ss |}).

Fixpoint classify_then_filter_all (l : list Anamnesis)
    (_all : list Annotated) : M (list Annotated) :=
  match l with
  | [] => mret _all
  | a :: l' =>
      o ← annotate_classify_then_filter a;
      classify_then_filter_all l' (match o with
                                   | Some r => _all ++ [r]
                                   | None => _all
                                   end)
  end.

Definition get_anamnesis_list_classify_then_filter
    : M (list Annotated) :=
  _ ← query Q_encounters;
  _ ← query Q_anamnesis;
  classify_then_filter_all (_a db Encounter_first self) [].

(** The encounters of the range and towns that belong to a client. *)
Definition matched_encounters (client : Z) : list Encounter :=
  List.filter (fun e => person_id e =? client)
              (selected_encounters db Encounter_first self).

(** Treated before: no income examination among the matched
    encounters of the client. *)
Definition been_cured_before (a : Anamnesis) : bool :=
  negb (income_examination_exists db (matched_encounters (client_id a))).

(** The risky-manners records of an anamnesis for one behaviour. *)
Definition records (a : Anamnesis) (b : Z) : list RiskyManners :=
  List.filter (fun r => behavior r =? b) (riskymanners_set db a).

(** Section 4.2, first stage: the state a pair of periodicities is
    classified as. *)
Definition classifies (present past : option Z) (state : string) : Prop :=
  (present = Some (NEVER p) -> past = Some (NEVER p) -> state = "c"%string)
  /\ (present = Some (ONCE p) \/ present = Some (OFTEN p) ->
      state = "b"%string)
  /\ (present = Some (NEVER p) ->
      past = Some (ONCE p) \/ past = Some (OFTEN p) ->
      state = "a"%string)
  /\ (~ (present = Some (NEVER p) /\ past = Some (NEVER p)) ->
      ~ (present = Some (ONCE p) \/ present = Some (OFTEN p)) ->
      ~ (present = Some (NEVER p)
         /\ (past = Some (ONCE p) \/ past = Some (OFTEN p))) ->
      state = "d"%string).

(** Section 4.2, second stage: the answer a periodicity maps to. *)
Definition answers (per : option Z) (answer : option string) : Prop :=
  (per = Some (ONCE p) \/ per = Some (OFTEN p) ->
   answer = Some "yes"%string)
  /\ (per = Some (NEVER p) -> answer = Some "no"%string)
  /\ (per <> Some (ONCE p) -> per <> Some (OFTEN p) ->
      per <> Some (NEVER p) -> answer = Some "unknown"%string).

End Worded.

End HygieneSpec.

(** ** A small store used for concrete runs *)

Module Sample.

Definition periodicity : RISKY_BEHAVIOR_PERIODICITY_t :=
  {| NEVER := 1; ONCE := 2; OFTEN := 3 |}.

Definition behaviors : RISKY_BEHAVIOR_KIND_t :=
  {| INTRAVENOUS_APPLICATION := 1; SYRINGE_SHARING := 2 |}.

Definition drugs : DRUGS_t :=
  {| HEROIN := 1; SUBUTEX_LEGAL := 2; SUBUTEX_ILLEGAL := 3; SUBOXONE := 4;
     METHADONE := 5; VENDAL := 6; RAW_OPIUM := 7; BRAUN := 8;
     METHAMPHETAMINE := 9; COCAINE := 10; THC := 11; ECSTASY := 12;
     LSD := 13; PSYLOCIBE := 14; INHALER_DRUGS := 15;
     DESIGNER_DRUGS := 16; MEDICAMENTS := 17;
     ALCOHOL := 18; TOBACCO := 19;
     PATHOLOGICAL_GAMBLING := 20; OTHER_NON_SUBSTANCE_ADDICTION := 21 |}.

Definition sexes : SEXES_t := {| MALE := 1; FEMALE := 2 |}.

Definition application_types : DRUG_APPLICATION_TYPES_t :=
  {| VEIN_INJECTION := 1; MUSCLE_INJECTION := 2 |}.

Definition diseases : DISEASES_t :=
  {| HIV := 1; VHC := 2; VHB := 3; SYFILIS := 4 |}.

Definition client (pk : Z) (birth : option date) (drug : option Z)
    : Client :=
  {| client_pk := pk; sex := 1; birthdate := birth; primary_drug := drug;
     primary_drug_usage := None; close_person := false;
     sex_partner := false |}.

Definition service (id : Z) (cls : ServiceCls) (enc : Z) : Service :=
  {| service_id := id; content_type := cls; encounter := enc;
     in_count := 0; out_count := 0; disease := None;
     pregnancy_test := false; drug_test := false |}.

(** Clients 1 (heroin) and 2 (alcohol), the anonymous person 9; client 2
    has had an income examination in the quarter, client 1 has not. *)
Definition db : DB :=
  {| Town_objects := [1; 2];
     Anonymous_objects := [9];
     Client_objects :=
       [client 1 (Some (Date 1980 5 17)) (Some 1);
        client 2 (Some (Date 1991 1 2)) (Some 18);
        client 3 None (Some 9)];
     Encounter_objects :=
       [{| encounter_id := 10; person_id := 1;
           performed_on := Date 2012 2 1; where_ := 1;
           is_by_phone := false |};
        {| encounter_id := 11; person_id := 2;
           performed_on := Date 2012 2 3; where_ := 2;
           is_by_phone := false |};
        {| encounter_id := 12; person_id := 9;
           performed_on := Date 2012 2 7; where_ := 1;
           is_by_phone := false |};
        {| encounter_id := 13; person_id := 1;
           performed_on := Date 2012 3 9; where_ := 1;
           is_by_phone := true |}];
     Service_objects :=
       [service 100 IncomeExamination 11;
        service 101 ContactWork 12;
        service 102 ContactWork 10;
        service 103 ContactWork 13];
     SyringeCollection_objects := [];
     Anamnesis_objects :=
       [{| anamnesis_id := 50; client_id := 1 |};
        {| anamnesis_id := 51; client_id := 2 |}];
     RiskyManners_objects :=
       [{| rm_anamnesis := 50; behavior := 1;
           periodicity_in_present := Some 1;
           periodicity_in_past := Some 2 |};
        {| rm_anamnesis := 50; behavior := 2;
           periodicity_in_present := Some 1;
           periodicity_in_past := Some 3 |};
        {| rm_anamnesis := 51; behavior := 1;
           periodicity_in_present := Some 3;
           periodicity_in_past := None |};
        {| rm_anamnesis := 51; behavior := 2;
           periodicity_in_present := Some 1;
           periodicity_in_past := Some 3 |}] |}.

(** A store in which only the anonymous person 9 was met. *)
Definition db_anonymous_only : DB :=
  {| Town_objects := [1];
     Anonymous_objects := [9];
     Client_objects := [];
     Encounter_objects :=
       [{| encounter_id := 12; person_id := 9;
           performed_on := Date 2012 2 7; where_ := 1;
           is_by_phone := false |}];
     Service_objects := [service 101 ContactWork 12];
     SyringeCollection_objects := [];
     Anamnesis_objects := [];
     RiskyManners_objects := [] |}.

(** [Encounter.objects.first] for the runs: the encounters of the year
    and towns that no earlier encounter of the same person precedes. *)
Definition first (db : DB) (y : Z) (towns : list Z) : list Encounter :=
  let scope :=
    List.filter (fun e => (year (performed_on e) =? y) && mem (where_ e) towns)
                (Encounter_objects db) in
  List.filter
    (fun e => forallb (fun e' => negb ((person_id e' =? person_id e)
                                       && date_ltb (performed_on e')
                                                   (performed_on e)))
                      scope)
    scope.

Definition quarter_from : date := Date 2012 1 1.
Definition quarter_to : date := Date 2012 3 31.

Definition hygiene (kind : Z) : Hygiene.HygieneReport :=
  Hygiene.__init__ db quarter_from quarter_to [] kind.

Definition council (kind : Z) (towns : list Z) : Council.GovCouncilReport :=
  Council.__init__ quarter_from quarter_to kind towns.

End Sample.

(** * Properties *)

(** ** File names *)

Section Filenames.

Lemma append_cons c (s t : string) :
  (String c s ++ t)%string = String c (s ++ t)%string.
Proof. reflexivity. Qed.

Lemma append_assoc (s t u : string) :
  ((s ++ t) ++ u = s ++ (t ++ u))%string.
Proof.
  induction s as [|c s IH]; [reflexivity|].
  rewrite !append_cons. now rewrite IH.
Qed.

Lemma replace_app old new (s t : string) :
  replace old new (s ++ t)%string
  = (replace old new s ++ replace old new t)%string.
Proof.
  induction s as [|c s IH]; [reflexivity|].
  rewrite append_cons. cbn [replace]. now rewrite append_cons, IH.
Qed.

Lemma occurs_app c (s t : string) :
  occurs c (s ++ t)%string = occurs c s || occurs c t.
Proof.
  induction s as [|c' s IH]; [reflexivity|].
  rewrite append_cons. cbn [occurs]. now rewrite IH, orb_assoc.
Qed.

Lemma replace_absent old new (s : string) :
  occurs old s = false -> replace old new s = s.
Proof.
  induction s as [|c s IH]; simpl; [reflexivity|].
  intros H. apply orb_false_elim in H as [Hc Hs].
  rewrite Hc, IH by assumption. reflexivity.
Qed.
Lemma digit_cases (n : Z) :
  In (digit n) ["0"; "1"; "2"; "3"; "4"; "5"; "6"; "7"; "8"; "9"]%char.
Proof.
  unfold digit.
  pose proof (Z.mod_pos_bound n 10 ltac:(lia)) as Hb.
  assert (Hc : (Z.to_nat (n mod 10) < 10)%nat) by lia.
  revert Hc. generalize (Z.to_nat (n mod 10)) as k. intros k Hk.
  do 10 (destruct k as [|k]; [vm_compute; tauto|]). lia.
Qed.

Lemma occurs_digit (c : ascii) (n : Z) :
  c = "-"%char \/ c = " "%char -> Ascii.eqb (digit n) c = false.
Proof.
  intros Hc. apply Ascii.eqb_neq. intros Heq.
  pose proof (digit_cases n) as Hd. rewrite Heq in Hd.
  cbn [In] in Hd. destruct Hc; subst c; intuition discriminate.
Qed.

Lemma occurs_pad2 c n :
  c = "-"%char \/ c = " "%char -> occurs c (pad2 n) = false.
Proof.
  intros Hc. unfold pad2. cbn [occurs]. now rewrite !occurs_digit.
Qed.

Lemma occurs_pad4 c n :
  c = "-"%char \/ c = " "%char -> occurs c (pad4 n) = false.
Proof.
  intros Hc. unfold pad4. cbn [occurs].
  rewrite !occurs_digit by assumption. now apply occurs_pad2.
Qed.

(** The cleaned text of a [datetime]: dashes and the space have become
    underscores, digits and colons stay. *)
Lemma replace_str_datetime (dt : datetime) :
  replace " " "_" (replace "-" "_" (str_datetime dt))
  = (pad4 (year (dt_date dt)) ++ "_" ++ pad2 (month (dt_date dt)) ++ "_"
     ++ pad2 (day (dt_date dt)) ++ "_" ++ str_time (dt_time dt))%string.
Proof.
  unfold str_datetime, str_date, str_time.
  rewrite !replace_app.
  rewrite !(replace_absent "-" "_" (pad4 _)) by (apply occurs_pad4; auto).
  rewrite !(replace_absent "-" "_" (pad2 _)) by (apply occurs_pad2; auto).
  rewrite !(replace_absent " " "_" (pad4 _)) by (apply occurs_pad4; auto).
  rewrite !(replace_absent " " "_" (pad2 _)) by (apply occurs_pad2; auto).
  cbn [replace Ascii.eqb Bool.eqb].
  rewrite !append_assoc. reflexivity.
Qed.

End Filenames.

(** C9, counterexample: two council reports over different date ranges get
    the same file name, so that name is not derived from the date range. *)
Lemma council_filename_ignores_date_range :
  let first_quarter := Council.__init__ (Date 2012 1 1) (Date 2012 3 31) 1 [] in
  let third_quarter := Council.__init__ (Date 2013 7 1) (Date 2013 9 30) 1 [] in
  Council.datetime_from first_quarter <> Council.datetime_from third_quarter
  /\ Council.datetime_to first_quarter <> Council.datetime_to third_quarter
  /\ Council.get_filename first_quarter = "RVKPP_klienti.xls"%string
  /\ Council.get_filename third_quarter = "RVKPP_klienti.xls"%string.
Proof.
  repeat split; try reflexivity; discriminate.
Qed.

(** C9, amended: the hygiene report's file name is
    [vystup_pro_hygienu_<from>_<to>.doc], the two bounds of the date range
    printed as [YYYY-MM-DD HH:MM:SS] with every dash and space turned into
    an underscore, so that the name holds neither; the council report's
    file name depends on the kind of the report only. *)
Theorem get_filename_per_report :
  (forall db date_from date_to towns kind,
     let name :=
       Hygiene.get_filename
         (Hygiene.__init__ db date_from date_to towns kind) in
     name = ("vystup_pro_hygienu_"
             ++ pad4 (year date_from) ++ "_" ++ pad2 (month date_from)
             ++ "_" ++ pad2 (day date_from) ++ "_00:00:00_"
             ++ pad4 (year date_to) ++ "_" ++ pad2 (month date_to)
             ++ "_" ++ pad2 (day date_to) ++ "_23:59:59.doc")%string
     /\ occurs " " name = false
     /\ occurs "-" name = false)
  /\ (forall date_from date_to kind towns,
        Council.get_filename (Council.__init__ date_from date_to kind towns)
        = if kind =? 1 then "RVKPP_klienti.xls"%string
          else "RVKPP_vykony.xls"%string).
Proof.
  split.
  - intros db date_from date_to towns kind name.
    assert (Hname : name
                    = ("vystup_pro_hygienu_"
             ++ pad4 (year date_from) ++ "_" ++ pad2 (month date_from)
             ++ "_" ++ pad2 (day date_from) ++ "_00:00:00_"
             ++ pad4 (year date_to) ++ "_" ++ pad2 (month date_to)
             ++ "_" ++ pad2 (day date_to) ++ "_23:59:59.doc")%string).
    { subst name. unfold Hygiene.get_filename, Hygiene.__init__.
      cbn [Hygiene.datetime_from Hygiene.datetime_to].
      rewrite !replace_app, !replace_str_datetime.
      unfold combine. cbn [dt_date dt_time].
      rewrite !append_assoc. reflexivity. }
    split; [exact Hname|].
    rewrite Hname.
    split; rewrite !occurs_app, !occurs_pad4, !occurs_pad2 by auto;
      reflexivity.
  - intros date_from date_to kind towns.
    unfold Council.get_filename, Council.__init__. cbn [Council.kind].
    destruct (kind =? 1); reflexivity.
Qed.

(** ** Average age *)

Section AverageAge.

Lemma truthy_len {A} (l : list A) : truthy l = true <-> 0 < len l.
Proof. destruct l; unfold len; simpl; split; intros; try lia; congruence. Qed.

(** The nearest integer of a fraction: [round] is off by at most a half. *)
Lemma round_nearest (a : Z) (b : positive) :
  2 * Z.abs (round (a # b) * Z.pos b - a) <= Z.pos b.
Proof.
  unfold round, Qle_bool, Qplus, Qopp, Qfloor.
  cbn [Qnum Qden].
  destruct (0 * Z.pos b <=? a * 1) eqn:Hsign.
  - apply Z.leb_le in Hsign.
    pose proof (Z.div_mod (a * 2 + 1 * Z.pos b) (Z.pos (b * 2)) ltac:(lia)).
    pose proof (Z.mod_pos_bound (a * 2 + 1 * Z.pos b) (Z.pos (b * 2))
                  ltac:(lia)).
    rewrite Pos2Z.inj_mul in *. nia.
  - apply Z.leb_gt in Hsign.
    pose proof (Z.div_mod (- a * 2 + 1 * Z.pos b) (Z.pos (b * 2)) ltac:(lia)).
    pose proof (Z.mod_pos_bound (- a * 2 + 1 * Z.pos b) (Z.pos (b * 2))
                  ltac:(lia)).
    rewrite Pos2Z.inj_mul in *. nia.
Qed.

(** Dividing a sum by a positive count never raises. *)
Lemma float_div_pos (s n : Z) :
  0 < n ->
  float_div (inject_Z s) (inject_Z n) = Ok (s # Z.to_pos n).
Proof.
  intros Hn. destruct n as [|k|k]; try lia.
  unfold float_div, Qdiv, Qmult, Qinv, inject_Z. cbn.
  now rewrite Z.mul_1_r.
Qed.

Lemma years_known_ages this_year (clients : list Client) :
  map (fun year => this_year - year)
      (flat_map (fun c => match birthdate c with
                          | Some b => [year b]
                          | None => []
                          end) clients)
  = known_ages this_year clients.
Proof.
  unfold known_ages.
  induction clients as [|c clients IH]; [reflexivity|].
  cbn [flat_map List.filter].
  destruct (birthdate c) as [b|] eqn:E; cbn; rewrite ?E, IH; reflexivity.
Qed.

(** The average age is a total function of the group. *)
Lemma _get_average_age_total this_year (clients : list Client) :
  exists r, Council._get_average_age this_year clients = Ok r.
Proof.
  unfold Council._get_average_age. rewrite years_known_ages.
  destruct (truthy (known_ages this_year clients)) eqn:Ht.
  - apply truthy_len in Ht. rewrite float_div_pos by assumption.
    eexists. reflexivity.
  - eexists. reflexivity.
Qed.

End AverageAge.

(** C4: the average age of a group is the sum of (current year - birth
    year) over its clients with a known birthdate, divided by their
    number and rounded to a nearest integer; when no client has a
    birthdate the result is 0 and no division takes place, so no
    [ZeroDivisionError] can be raised. *)
Theorem _get_average_age_rounded_average this_year (clients : list Client) :
  let ages := known_ages this_year clients in
  exists r,
    Council._get_average_age this_year clients = Ok r
    /\ 2 * Z.abs (r * len ages - zsum ages) <= len ages
    /\ (ages = [] -> r = 0)
    /\ (ages = [] ->
        float_div (inject_Z (zsum ages)) (inject_Z (len ages))
        = Raise ZeroDivisionError).
Proof.
  intros ages. unfold Council._get_average_age.
  rewrite years_known_ages. fold ages.
  destruct (truthy ages) eqn:Ht.
  - apply truthy_len in Ht. rewrite float_div_pos by assumption.
    eexists. split; [reflexivity|].
    split; [|split; intros E; rewrite E in Ht; unfold len in Ht; simpl in Ht; lia].
    pose proof (round_nearest (zsum ages) (Z.to_pos (len ages))) as Hr.
    rewrite Z2Pos.id in Hr by assumption.
    exact Hr.
  - exists 0. split; [reflexivity|].
    destruct ages; [|discriminate].
    split; [unfold len; simpl; lia|]. split; reflexivity.
Qed.

(** ** Aggregates over no rows *)

(** C10: with no matching [SyringeCollection] the syringes count is
    [None], not 0, and so is its cell in the services table; with no
    matching [HarmReduction] service the sums of needles given out and
    taken in are [None] as well; the helpers [_sum_int], [_max_int] and
    [_avg_int] turn the empty aggregate into 0. *)
Theorem empty_aggregates_None_or_0 (db : DB) (DISEASES : DISEASES_t)
    (self : Council.GovCouncilReport) :
  let rows := Council._get_data_services db DISEASES self in
  (SyringeCollection_filter db (Council.syringes_filtering self) = [] ->
     Council._get_syringes_count db self = None
     /\ Council._get_syringes_count db self <> Some 0
     /\ service_row "Počet nalezených injekčních jehel a stříkaček (ks)" rows
        = Some (Str "xxx", PyNone))
  /\ (Council._get_services db self HarmReduction = [] ->
      service_row "Počet vydaných injekčních jehel a stříkaček (ks)" rows
      = Some (Str "xxx", PyNone)
      /\ service_row "Počet přijatých injekčních jehel a stříkaček (ks)" rows
         = Some (Str "xxx", PyNone))
  /\ (forall model filtering field,
        Basic.objects_filter db model filtering = [] ->
        Basic._sum_int db model filtering field = 0
        /\ Basic._max_int db model filtering field = 0
        /\ Basic._avg_int db model filtering field = 0%Q).
Proof.
  intros rows. split; [|split].
  - intros Hnone.
    assert (Hcount : Council._get_syringes_count db self = None).
    { unfold Council._get_syringes_count. now rewrite Hnone. }
    split; [exact Hcount|]. split; [rewrite Hcount; discriminate|].
    subst rows. unfold Council._get_data_services.
    cbn [service_row String.eqb Ascii.eqb Bool.eqb].
    now rewrite Hcount.
  - intros Hnone. subst rows. unfold Council._get_data_services.
    cbn [service_row String.eqb Ascii.eqb Bool.eqb].
    rewrite Hnone. split; reflexivity.
  - intros model filtering field Hnone.
    unfold Basic._sum_int, Basic._max_int, Basic._avg_int.
    rewrite Hnone. repeat split.
Qed.

Lemma empty_aggregates_None_or_0_witness :
  Council._get_syringes_count Sample.db (Sample.council 2 []) = None
  /\ service_row "Počet vydaných injekčních jehel a stříkaček (ks)"
       (Council._get_data_services Sample.db Sample.diseases
          (Sample.council 2 []))
     = Some (Str "xxx", PyNone).
Proof.
  pose proof (empty_aggregates_None_or_0 Sample.db Sample.diseases
                (Sample.council 2 [])) as (Hsyringes & Hneedles & _).
  split.
  - apply Hsyringes. reflexivity.
  - apply Hneedles. reflexivity.
Defined.


(** ** Look-ups and the town filter *)

Section Lookups.

Lemma mem_elem_of (x : Z) (l : list Z) : mem x l = true <-> x ∈ l.
Proof.
  unfold mem. rewrite existsb_exists, list_elem_of_In. split.
  - intros (y & Hy & Heq). apply Z.eqb_eq in Heq. now subst y.
  - intros Hx. exists x. split; [assumption | apply Z.eqb_refl].
Qed.

Lemma mem_false_not_elem_of (x : Z) (l : list Z) :
  mem x l = false <-> x ∉ l.
Proof.
  rewrite <- mem_elem_of. destruct (mem x l); split; congruence.
Qed.

Lemma truthy_false {A} (l : list A) : truthy l = false <-> l = [].
Proof. destruct l; simpl; split; congruence. Qed.

Lemma elem_of_filter_bool {A} (f : A -> bool) (l : list A) (x : A) :
  x ∈ List.filter f l <-> x ∈ l /\ f x = true.
Proof. rewrite !list_elem_of_In. apply filter_In. Qed.

Lemma filter_filter_andb {A} (f g : A -> bool) (l : list A) :
  List.filter g (List.filter f l) = List.filter (fun x => f x && g x) l.
Proof.
  induction l as [|x l IH]; [reflexivity|]. cbn [List.filter].
  destruct (f x); cbn [andb List.filter]; [|exact IH].
  destruct (g x); now rewrite IH.
Qed.

Lemma encounter_passes_app (f g : list EncounterLookup) (e : Encounter) :
  encounter_passes (f ++ g) e = encounter_passes f e && encounter_passes g e.
Proof. unfold encounter_passes. apply forallb_app. Qed.

Context (db : DB) (self : Council.GovCouncilReport).

(** What the [if self.towns:] entry asks of an encounter. *)
Lemma towns_entry_passes (e : Encounter) :
  encounter_passes (Council.towns_entry self) e = true
  <-> Council.towns self = [] \/ where_ e ∈ Council.towns self.
Proof.
  unfold Council.towns_entry.
  destruct (truthy (Council.towns self)) eqn:Ht.
  - unfold encounter_passes. cbn [forallb encounter_matches].
    rewrite andb_true_r, mem_elem_of. split; [tauto|].
    intros [Hnil|Hin]; [|assumption].
    rewrite Hnil in Ht. discriminate.
  - apply truthy_false in Ht. split; [tauto | reflexivity].
Qed.

Lemma period_filtering_passes (e : Encounter) :
  encounter_passes (Council.period_filtering self) e = true
  <-> date_leb (to_date (Council.datetime_from self)) (performed_on e) = true
      /\ date_leb (performed_on e) (to_date (Council.datetime_to self)) = true
      /\ (Council.towns self = [] \/ where_ e ∈ Council.towns self).
Proof.
  unfold Council.period_filtering.
  rewrite encounter_passes_app, andb_true_iff, towns_entry_passes.
  unfold encounter_passes at 1. cbn [forallb encounter_matches].
  rewrite andb_true_r, andb_true_iff. tauto.
Qed.

End Lookups.

(** C5: every query of the council report asks of the town only that it
    be one of the chosen towns, and asks nothing when no town was chosen;
    the hygiene report replaces an empty choice by all towns, which, every
    encounter being in a town of the store, restricts nothing either. *)
Theorem towns_filter_optional (db : DB) :
  (forall (self : Council.GovCouncilReport),
     let from := to_date (Council.datetime_from self) in
     let to := to_date (Council.datetime_to self) in
     (forall cls s,
        s ∈ Council._get_services db self cls
        <-> s ∈ Service_objects db /\ content_type s = cls
            /\ exists e, encounter_of db s = Some e
                 /\ date_leb from (performed_on e) = true
                 /\ date_leb (performed_on e) to = true
                 /\ (Council.towns self = [] \/ where_ e ∈ Council.towns self))
     /\ (forall filtering e,
           e ∈ Council.__get_client_encounters db self filtering
           <-> e ∈ Encounter_objects db
               /\ encounter_passes filtering e = true
               /\ date_leb from (performed_on e) = true
               /\ date_leb (performed_on e) to = true
               /\ (Council.towns self = [] \/ where_ e ∈ Council.towns self)
               /\ person_id e ∉ Anonymous_objects db)
     /\ (forall c,
           c ∈ Council._get_all_drug_users db self
           <-> c ∈ Client_objects db /\ primary_drug c <> None
               /\ exists e, e ∈ Encounter_objects db
                    /\ person_id e = client_pk c
                    /\ date_leb from (performed_on e) = true
                    /\ date_leb (performed_on e) to = true
                    /\ (Council.towns self = []
                        \/ where_ e ∈ Council.towns self))
     /\ (forall c,
           c ∈ Council._get_clients_non_drug_users db self
           <-> c ∈ Client_objects db
               /\ (close_person c = true \/ sex_partner c = true)
               /\ exists e, e ∈ Encounter_objects db
                    /\ person_id e = client_pk c
                    /\ date_leb from (performed_on e) = true
                    /\ date_leb (performed_on e) to = true
                    /\ (Council.towns self = []
                        \/ where_ e ∈ Council.towns self))
     /\ (forall cls,
           Council._get_anonymous_count db self cls
           = len (List.filter
                    (fun s => match encounter_of db s with
                              | Some e => mem (person_id e) (Anonymous_objects db)
                              | None => false
                              end)
                    (Council._get_services db self cls)))
     /\ (forall c,
           c ∈ SyringeCollection_filter db (Council.syringes_filtering self)
           <-> c ∈ SyringeCollection_objects db
               /\ date_leb from (sc_date c) = true
               /\ date_leb (sc_date c) to = true
               /\ (Council.towns self = [] \/ sc_town c ∈ Council.towns self)))
  /\ (forall Encounter_first date_from date_to towns kind,
        (forall e, e ∈ Encounter_objects db -> where_ e ∈ Town_objects db) ->
        let self := Hygiene.__init__ db date_from date_to towns kind in
        let firsts :=
          List.filter
            (encounter_passes
               [performed_on__gte (Hygiene.datetime_from self);
                performed_on__lt (Hygiene.datetime_to self)])
            (Encounter_first (year date_from) (Hygiene.towns self)) in
        forall e,
          e ∈ Hygiene.selected_encounters db Encounter_first self
          <-> e ∈ Encounter_objects db
              /\ date_leb date_from (performed_on e) = true
              /\ date_ltb (performed_on e) date_to = true
              /\ (towns = [] \/ where_ e ∈ towns)
              /\ person_id e ∈ map person_id firsts).
Proof.
  split.
  - intros self from to. split; [|split; [|split; [|split; [|split]]]].
    + intros cls s.
      unfold Council._get_services, Service_filter.
      rewrite elem_of_filter_bool, andb_true_iff, bool_decide_eq_true.
      fold (Council.period_filtering self).
      unfold service_passes. split.
      * intros (Hs & Hcls & Hpass). split; [assumption|]. split; [assumption|].
        destruct (encounter_of db s) as [e|]; [|discriminate].
        exists e. split; [reflexivity|]. now apply period_filtering_passes.
      * intros (Hs & Hcls & e & He & Hrange). split; [assumption|].
        split; [assumption|]. rewrite He. now apply period_filtering_passes.
    + intros filtering e.
      unfold Council.__get_client_encounters, Encounter_filter.
      rewrite !elem_of_filter_bool, negb_true_iff, mem_false_not_elem_of.
      fold (Council.period_filtering self).
      rewrite encounter_passes_app, andb_true_iff, period_filtering_passes.
      tauto.
    + intros c.
      unfold Council._get_all_drug_users, Encounter_filter.
      rewrite !elem_of_filter_bool, mem_elem_of, list_elem_of_fmap. split.
      * intros ((Hc & e & Hpk & He) & Hdrug).
        apply elem_of_filter_bool in He as [He Hpass].
        apply period_filtering_passes in Hpass.
        split; [assumption|]. split.
        -- unfold Council.has_primary_drug in Hdrug.
           destruct (primary_drug c); [discriminate | discriminate].
        -- exists e. intuition.
      * intros (Hc & Hdrug & e & He & Hpk & Hrange).
        split; [split; [assumption|]|].
        -- exists e. split; [now symmetry|].
           apply elem_of_filter_bool. split; [assumption|].
           apply period_filtering_passes. tauto.
        -- unfold Council.has_primary_drug.
           destruct (primary_drug c); [reflexivity | congruence].
    + intros c.
      unfold Council._get_clients_non_drug_users, Encounter_filter.
      rewrite !elem_of_filter_bool, mem_elem_of, list_elem_of_fmap,
        orb_true_iff.
      split.
      * intros ((Hc & e & Hpk & He) & Hkind).
        apply elem_of_filter_bool in He as [He Hpass].
        apply period_filtering_passes in Hpass.
        split; [assumption|]. split; [assumption|]. exists e. intuition.
      * intros (Hc & Hkind & e & He & Hpk & Hrange).
        split; [split; [assumption|] | assumption].
        exists e. split; [now symmetry|].
        apply elem_of_filter_bool. split; [assumption|].
        apply period_filtering_passes. tauto.
    + intros cls.
      unfold Council._get_anonymous_count, Council._get_services,
        Council._get_anonymous_ids, Service_filter.
      rewrite filter_filter_andb. f_equal. apply filter_ext. intros s.
      unfold service_passes. destruct (encounter_of db s) as [e|];
        [|now rewrite andb_false_r].
      unfold encounter_passes. rewrite !forallb_app.
      cbn [forallb encounter_matches].
      destruct (bool_decide (content_type s = cls)),
        (date_leb (to_date (Council.datetime_from self)) (performed_on e)),
        (date_leb (performed_on e) (to_date (Council.datetime_to self))),
        (mem (person_id e) (Anonymous_objects db)),
        (forallb (encounter_matches e) (Council.towns_entry self));
        reflexivity.
    + intros c.
      unfold SyringeCollection_filter, Council.syringes_filtering.
      rewrite elem_of_filter_bool, forallb_app, andb_true_iff.
      cbn [forallb syringe_matches]. rewrite andb_true_r, andb_true_iff.
      split.
      * intros (Hc & (Hfrom & Hto) & Htowns). repeat (split; [assumption|]).
        destruct (truthy (Council.towns self)) eqn:Ht.
        -- cbn [forallb syringe_matches] in Htowns.
           rewrite andb_true_r, mem_elem_of in Htowns. now right.
        -- left. now apply truthy_false.
      * intros (Hc & Hfrom & Hto & Htowns).
        split; [assumption|]. split; [split; assumption|].
        destruct (truthy (Council.towns self)) eqn:Ht.
        -- cbn [forallb syringe_matches]. rewrite andb_true_r, mem_elem_of.
           destruct Htowns as [Hnil|Hin]; [|assumption].
           rewrite Hnil in Ht. discriminate.
        -- reflexivity.
  - intros Encounter_first date_from date_to towns kind Hintegrity self firsts e.
    unfold Hygiene.selected_encounters, Encounter_filter.
    rewrite elem_of_filter_bool. fold firsts.
    unfold encounter_passes at 1. cbn [forallb encounter_matches].
    rewrite andb_true_r, !andb_true_iff, !mem_elem_of.
    subst self. unfold Hygiene.__init__ at 1 2 3.
    cbn [Hygiene.datetime_from Hygiene.datetime_to Hygiene.towns].
    unfold to_date, combine. cbn [dt_date].
    split.
    + intros (He & Hfrom & Hto & Hwhere & Hperson).
      repeat (split; [assumption|]). split; [|assumption].
      destruct towns as [|t towns]; [now left | now right].
    + intros (He & Hfrom & Hto & Hwhere & Hperson).
      repeat (split; [assumption|]). split; [|assumption].
      destruct towns as [|t towns]; cbn [truthy].
      * now apply Hintegrity.
      * destruct Hwhere as [Hnil|Hin]; [discriminate | assumption].
Qed.

Lemma towns_filter_optional_witness :
  {| encounter_id := 10; person_id := 1; performed_on := Date 2012 2 1;
     where_ := 1; is_by_phone := false |}
  ∈ Hygiene.selected_encounters Sample.db (Sample.first Sample.db)
      (Sample.hygiene 1).
Proof.
  refine (proj2 (proj2 (towns_filter_optional Sample.db)
                   (Sample.first Sample.db) Sample.quarter_from
                   Sample.quarter_to [] 1 _ _) _).
  - intros e He. cbn in He. cbn.
    rewrite !elem_of_cons, elem_of_nil in He.
    destruct He as [->|[->|[->|[->|[]]]]]; cbn; rewrite !elem_of_cons; auto.
  - split; [apply list_elem_of_here|].
    split; [reflexivity|]. split; [reflexivity|]. split; [now left|].
    vm_compute. apply list_elem_of_here.
Defined.


(** ** Client counts *)

Section ClientCounts.

Lemma fold_left_app_flat_map {A B} (f : A -> list B) (l : list A)
    (acc : list B) :
  fold_left (fun acc x => acc ++ f x) l acc = acc ++ flat_map f l.
Proof.
  revert acc. induction l as [|x l IH]; intros acc; cbn [fold_left flat_map].
  - now rewrite app_nil_r.
  - now rewrite IH, app_assoc.
Qed.

Lemma elem_of_flat_map {A B} (f : A -> list B) (l : list A) (y : B) :
  y ∈ flat_map f l <-> exists x, x ∈ l /\ y ∈ f x.
Proof.
  rewrite list_elem_of_In, in_flat_map.
  split; intros (x & Hx & Hy); exists x;
    rewrite ?list_elem_of_In in *; tauto.
Qed.

Lemma elem_of_encounter__person_ids (db : DB) (qs : list Service) (pid : Z) :
  pid ∈ encounter__person_ids db qs
  <-> exists s e, s ∈ qs /\ encounter_of db s = Some e /\ person_id e = pid.
Proof.
  unfold encounter__person_ids. rewrite elem_of_flat_map. split.
  - intros (s & Hs & Hpid). exists s.
    destruct (encounter_of db s) as [e|]; [|now apply elem_of_nil in Hpid].
    exists e. apply list_elem_of_singleton in Hpid. auto.
  - intros (s & e & Hs & He & Hpid). exists s. split; [assumption|].
    rewrite He. apply list_elem_of_singleton. now symmetry.
Qed.

End ClientCounts.

(** C3, counterexample: in a store where the only person ever met is
    anonymous, the persons cell of the contact-work row of the services
    table is 1: the row adds the anonymous contacts to the client count. *)
Lemma contact_work_row_counts_anonymous :
  let db := Sample.db_anonymous_only in
  let rows := Council._get_data_services db Sample.diseases
                (Sample.council 2 []) in
  Forall (fun e => person_id e ∈ Anonymous_objects db) (Encounter_objects db)
  /\ service_row "Kontaktní práce" rows = Some (Int 1, Int 1).
Proof.
  split.
  - repeat constructor.
  - vm_compute. reflexivity.
Qed.

(** C3, amended: for every list of service classes [_get_client_count]
    is the number of elements of the set of persons of the matched
    services that are not anonymous, a person met through several
    services or classes counting once, and [_get_queryset_client_count]
    is the same number for a queryset; so neither helper counts an
    anonymous person.  The persons cell of the contact-work row of the
    services table is that count plus the number of contact-work services
    of anonymous persons. *)
Theorem _get_client_count_set_difference (db : DB) (DISEASES : DISEASES_t)
    (self : Council.GovCouncilReport) :
  (forall service_classes : list ServiceCls,
     exists persons : gset Z,
       (forall pid,
          pid ∈ persons
          <-> (exists cls s e,
                 cls ∈ service_classes
                 /\ s ∈ Council._get_services db self cls
                 /\ encounter_of db s = Some e /\ person_id e = pid)
              /\ pid ∉ Anonymous_objects db)
       /\ Council._get_client_count db self service_classes
          = Z.of_nat (size persons))
  /\ (forall qs : list Service,
        exists persons : gset Z,
          (forall pid,
             pid ∈ persons
             <-> (exists s e,
                    s ∈ qs /\ encounter_of db s = Some e /\ person_id e = pid)
                 /\ pid ∉ Anonymous_objects db)
          /\ Council._get_queryset_client_count db qs
             = Z.of_nat (size persons))
  /\ service_row "Kontaktní práce"
       (Council._get_data_services db DISEASES self)
     = Some (Int (Council._get_client_count db self [ContactWork]
                  + Council._get_anonymous_count db self ContactWork),
             Int (Council._get_service_count db self [ContactWork])).
Proof.
  split; [|split; [|reflexivity]].
  - intros service_classes.
    unfold Council._get_client_count, Council._get_anonymous_ids.
    rewrite fold_left_app_flat_map, app_nil_l.
    eexists. split; [|reflexivity].
    intros pid.
    rewrite elem_of_difference, !elem_of_list_to_set, elem_of_flat_map.
    split.
    + intros [(cls & Hcls & Hpid) Hanon]. split; [|assumption].
      apply elem_of_encounter__person_ids in Hpid as (s & e & Hs & He & Hp).
      exists cls, s, e. auto.
    + intros [(cls & s & e & Hcls & Hs & He & Hp) Hanon]. split; [|assumption].
      exists cls. split; [assumption|].
      apply elem_of_encounter__person_ids. exists s, e. auto.
  - intros qs.
    unfold Council._get_queryset_client_count, Council._get_anonymous_ids.
    eexists. split; [|reflexivity].
    intros pid.
    now rewrite elem_of_difference, !elem_of_list_to_set,
      elem_of_encounter__person_ids.
Qed.

(** ** Clients by primary drug *)

Section PrimaryDrugs.

Lemma zsum_map_add {A} (f g : A -> Z) (l : list A) :
  zsum (map (fun x => f x + g x) l) = zsum (map f l) + zsum (map g l).
Proof.
  induction l as [|x l IH]; cbn [map zsum fold_right]; [reflexivity|].
  unfold zsum in IH. rewrite IH. lia.
Qed.

Lemma zsum_map_zero {A} (f : A -> Z) (l : list A) :
  (forall x, f x = 0) -> zsum (map f l) = 0.
Proof.
  intros Hf. induction l as [|x l IH]; [reflexivity|].
  cbn [map zsum fold_right]. unfold zsum in IH. rewrite IH, Hf. reflexivity.
Qed.

Lemma hit_primary_drug__in (c : Client) (g : list Z) :
  hit c g = if Council.primary_drug__in g c then 1 else 0.
Proof.
  unfold hit, Council.primary_drug__in.
  destruct (primary_drug c) as [d|]; reflexivity.
Qed.

Lemma hits_absent (c : Client) (groups : list (list Z)) :
  (forall d, primary_drug c = Some d -> d ∉ concat groups) ->
  zsum (map (hit c) groups) = 0.
Proof.
  induction groups as [|g groups IH]; intros Habs; [reflexivity|].
  cbn [map zsum fold_right]. fold (zsum (map (hit c) groups)).
  rewrite IH.
  - unfold hit.
    destruct (primary_drug c) as [d|] eqn:Hd; [|reflexivity].
    destruct (mem d g) eqn:Hm; [|reflexivity].
    apply mem_elem_of in Hm. exfalso. apply (Habs d eq_refl).
    cbn [concat]. apply elem_of_app. now left.
  - intros d Hd Hin. apply (Habs d Hd). cbn [concat].
    apply elem_of_app. now right.
Qed.

(** Disjoint groups: a client falls into one of them at most. *)
Lemma hits_at_most_one (c : Client) (groups : list (list Z)) :
  NoDup (concat groups) -> 0 <= zsum (map (hit c) groups) <= 1.
Proof.
  induction groups as [|g groups IH]; intros Hnd; [cbn; lia|].
  cbn [concat] in Hnd. apply NoDup_app in Hnd as (Hg & Hdisj & Hrest).
  cbn [map zsum fold_right]. fold (zsum (map (hit c) groups)).
  specialize (IH Hrest).
  rewrite (hit_primary_drug__in c g).
  destruct (Council.primary_drug__in g c) eqn:Hin; [|lia].
  rewrite hits_absent; [lia|].
  intros d Hd. unfold Council.primary_drug__in in Hin. rewrite Hd in Hin.
  apply mem_elem_of in Hin. now apply Hdisj.
Qed.

Lemma len_filter_cons {A} (f : A -> bool) (x : A) (l : list A) :
  len (List.filter f (x :: l))
  = (if f x then 1 else 0) + len (List.filter f l).
Proof.
  cbn [List.filter]. destruct (f x); unfold len; cbn [length]; lia.
Qed.

(** Counting the clients group by group never counts more clients than
    there are. *)
Lemma groups_within_total (clients : list Client) (groups : list (list Z)) :
  NoDup (concat groups) ->
  zsum (map (fun g => len (List.filter (Council.primary_drug__in g) clients))
            groups)
  <= len clients.
Proof.
  intros Hnd. induction clients as [|c clients IH].
  - rewrite zsum_map_zero by reflexivity. unfold len. cbn. lia.
  - erewrite (map_ext _ (fun g => hit c g + len (List.filter
                                     (Council.primary_drug__in g) clients))).
    2:{ intros g. rewrite hit_primary_drug__in. apply len_filter_cons. }
    rewrite zsum_map_add.
    pose proof (hits_at_most_one c groups Hnd).
    unfold len in *. cbn [length]. lia.
Qed.

End PrimaryDrugs.

(** C8: in the clients table the counts of rows 1.1 to 1.11, one row per
    group of primary drugs, add up to at most the value of row 5.1, the
    number of all non-anonymous drug users of the same date range and
    towns. *)
Theorem per_drug_rows_within_all_users (db : DB) (DRUGS : DRUGS_t)
    (SEXES : SEXES_t) (DRUG_APPLICATION_TYPES : DRUG_APPLICATION_TYPES_t)
    (this_year : Z) (self : Council.GovCouncilReport) :
  drugs_distinct DRUGS ->
  exists rows counts total,
    Council._get_data_clients db DRUGS SEXES DRUG_APPLICATION_TYPES
      this_year self = Ok rows
    /\ map (fun code => row_value code rows) per_drug_codes
       = map (fun n => Some (Int n)) counts
    /\ row_value "5.1" rows = Some (Int total)
    /\ total = len (Council._get_all_drug_users db self)
    /\ zsum counts <= total.
Proof.
  intros Hdistinct.
  unfold Council._get_data_clients.
  destruct (_get_average_age_total this_year
              (List.filter
                 (fun c => negb (Council.primary_drug__in
                                   [ALCOHOL DRUGS; TOBACCO DRUGS] c))
                 (Council._get_all_drug_users db self))) as [a1 ->].
  destruct (_get_average_age_total this_year
              (Council._get_primary_drug_users db self [ALCOHOL DRUGS]))
    as [a2 ->].
  destruct (_get_average_age_total this_year
              (Council._get_primary_drug_users db self [TOBACCO DRUGS]))
    as [a3 ->].
  destruct (_get_average_age_total this_year
              (Council._get_primary_drug_users db self
                 [PATHOLOGICAL_GAMBLING DRUGS;
                  OTHER_NON_SUBSTANCE_ADDICTION DRUGS])) as [a4 ->].
  cbn [mbind result_bind mret result_ret].
  eexists.
  exists (map (fun g => len (Council._get_primary_drug_users db self g))
              (per_drug_groups DRUGS)).
  exists (len (Council._get_all_drug_users db self)).
  split; [reflexivity|].
  split; [reflexivity|].
  split; [reflexivity|].
  split; [reflexivity|].
  unfold Council._get_primary_drug_users.
  apply groups_within_total. exact Hdistinct.
Qed.

Lemma per_drug_rows_within_all_users_witness :
  exists rows counts total,
    Council._get_data_clients Sample.db Sample.drugs Sample.sexes
      Sample.application_types 2026 (Sample.council 1 []) = Ok rows
    /\ map (fun code => row_value code rows) per_drug_codes
       = map (fun n => Some (Int n)) counts
    /\ row_value "5.1" rows = Some (Int total)
    /\ total = len (Council._get_all_drug_users Sample.db (Sample.council 1 []))
    /\ zsum counts <= total.
Proof.
  apply per_drug_rows_within_all_users.
  unfold drugs_distinct. vm_compute.
  repeat (constructor; [rewrite list_elem_of_In; cbn; lia|]). constructor.
Defined.

(** ** The hygiene report *)

Module HygieneFacts.
Import Hygiene HygieneSpec.

(** *** Computations that only log *)

Lemma run_bind {A B} (m : M A) (f : A -> M B) (log : list Query) :
  run (m ≫= f) log
  = match run m log with
    | (inr a, log') => run (f a) log'
    | (inl e, log') => (inl e, log')
    end.
Proof. reflexivity. Qed.

Lemma logs_only_ret {A} (a : A) : logs_only (mret a).
Proof. intros log. cbn. now rewrite app_nil_r. Qed.

Lemma logs_only_raise {A} (e : Err) : logs_only (@raise A e).
Proof. intros log. cbn. now rewrite app_nil_r. Qed.

Lemma logs_only_query (q : Query) : logs_only (query q).
Proof. intros log. reflexivity. Qed.

Lemma logs_only_bind {A B} (m : M A) (f : A -> M B) :
  logs_only m -> (forall a, logs_only (f a)) -> logs_only (m ≫= f).
Proof.
  intros Hm Hf log. unfold value, trace. rewrite !run_bind.
  rewrite (Hm log). unfold value, trace.
  destruct (run m []) as [[e|a] t]; cbn [fst snd]; [reflexivity|].
  rewrite (Hf a (log ++ t)), (Hf a t). cbn [fst snd].
  now rewrite app_assoc.
Qed.

Lemma logs_only_try {A} (body handler : M A) :
  logs_only body -> logs_only handler ->
  logs_only (try_except_DoesNotExist body handler).
Proof.
  intros Hb Hh log. unfold value, trace, try_except_DoesNotExist.
  cbn [run]. rewrite (Hb log). unfold value, trace.
  destruct (run body []) as [[[|e]|a] t]; cbn [fst snd]; try reflexivity.
  rewrite (Hh (log ++ t)), (Hh t). cbn [fst snd].
  now rewrite app_assoc.
Qed.

Ltac logs :=
  repeat first
    [ apply logs_only_ret
    | apply logs_only_raise
    | apply logs_only_query
    | apply logs_only_try
    | apply logs_only_bind; [|intros ?]
    | match goal with
      | |- logs_only (if ?b then _ else _) => destruct b
      | |- logs_only (match ?x with _ => _ end) => destruct x
      end ].

Ltac pick_state :=
  let S1 := fresh in let S2 := fresh in
  let S3 := fresh in let S4 := fresh in
  intros ? (S1 & S2 & S3 & S4);
  first [apply S1; tauto | apply S2; tauto | apply S3; tauto
        | apply S4; tauto].

Lemma equals_Some (x : option Z) (v : Z) : equals x v = true <-> x = Some v.
Proof.
  unfold equals. destruct x as [y|]; [|split; discriminate].
  rewrite Z.eqb_eq. split; congruence.
Qed.

Lemma is_in_pair (x : option Z) (v w : Z) :
  is_in x [v; w] = true <-> x = Some v \/ x = Some w.
Proof.
  unfold is_in. destruct x as [y|].
  - unfold mem. cbn [existsb]. rewrite orb_false_r, orb_true_iff, !Z.eqb_eq.
    split; intros [H|H]; first [left; congruence | right; congruence].
  - split; [discriminate | intros [H|H]; discriminate].
Qed.

Section Loop.
Context (db : DB).
Context (Encounter_first : Z -> list Z -> list Encounter).
Context (p : RISKY_BEHAVIOR_PERIODICITY_t).
Context (K : RISKY_BEHAVIOR_KIND_t).
Context (self : HygieneReport).

Lemma logs_only_riskymanners_get a b : logs_only (riskymanners_get db a b).
Proof. unfold riskymanners_get. logs. Qed.

Lemma logs_only_intravenous a : logs_only (intravenous_application db p K a).
Proof.
  unfold intravenous_application.
  apply logs_only_try; [|logs].
  apply logs_only_bind; [apply logs_only_riskymanners_get|]. intros r. logs.
Qed.

Lemma logs_only_sharing a iv : logs_only (syringe_sharing db p K a iv).
Proof.
  unfold syringe_sharing.
  destruct (_ || _); [|logs].
  apply logs_only_try; [|logs].
  apply logs_only_bind; [apply logs_only_riskymanners_get|]. intros r. logs.
Qed.

Lemma logs_only_getitem k : logs_only (getitem db Encounter_first self k).
Proof. unfold getitem. logs. Qed.

Lemma logs_only_annotate a :
  logs_only (annotate db Encounter_first p K self a).
Proof.
  unfold annotate.
  apply logs_only_bind; [apply logs_only_getitem|]. intros d.
  apply logs_only_bind; [apply logs_only_getitem|]. intros d'.
  apply logs_only_bind; [apply logs_only_query|]. intros _.
  destruct (_ && _); [logs|].
  apply logs_only_bind; [apply logs_only_intravenous|]. intros iv.
  apply logs_only_bind; [apply logs_only_sharing|]. intros ss. logs.
Qed.

Lemma logs_only_annotate_all l acc :
  logs_only (annotate_all db Encounter_first p K self l acc).
Proof.
  revert acc. induction l as [|a l IH]; intros acc; cbn [annotate_all].
  - logs.
  - apply logs_only_bind; [apply logs_only_annotate|]. intros o. apply IH.
Qed.

Lemma logs_only_get_anamnesis_list :
  logs_only (get_anamnesis_list db Encounter_first p K self).
Proof.
  unfold get_anamnesis_list.
  apply logs_only_bind; [apply logs_only_query|]. intros _.
  apply logs_only_bind; [apply logs_only_query|]. intros _.
  apply logs_only_annotate_all.
Qed.

(** *** The two classification stages *)

Lemma run_riskymanners_get a b log :
  run (riskymanners_get db a b) log
  = (match records db a b with
     | [] => inl DoesNotExist
     | [r] => inr r
     | _ :: _ :: _ => inl (Uncaught MultipleObjectsReturned)
     end, log ++ [Q_riskymanners_get (anamnesis_id a) b]).
Proof.
  unfold riskymanners_get, records. rewrite run_bind. cbn [run query].
  destruct (List.filter _ _) as [|r [|r' l]]; reflexivity.
Qed.

Lemma distinct_periodicities :
  periodicity_distinct p ->
  NEVER p <> ONCE p /\ NEVER p <> OFTEN p /\ ONCE p <> OFTEN p.
Proof.
  unfold periodicity_distinct. intros Hnd.
  apply NoDup_cons in Hnd as [H1 Hnd]. apply NoDup_cons in Hnd as [H2 _].
  apply not_elem_of_cons in H1 as [Hno H1].
  apply not_elem_of_cons in H1 as [Hnf _].
  apply not_elem_of_cons in H2 as [Hof _]. auto.
Qed.

Lemma equals_not (x : option Z) (v : Z) :
  equals x v = false <-> x <> Some v.
Proof.
  rewrite <- equals_Some. destruct (equals x v); split; congruence.
Qed.

Lemma is_in_not (x : option Z) (v w : Z) :
  is_in x [v; w] = false <-> ~ (x = Some v \/ x = Some w).
Proof.
  rewrite <- is_in_pair. destruct (is_in x [v; w]); split; congruence.
Qed.

(** First stage, outcome by outcome of the look-up. *)
Lemma value_intravenous (a : Anamnesis) :
  periodicity_distinct p ->
  match records db a (INTRAVENOUS_APPLICATION K) with
  | [] => value (intravenous_application db p K a) = inr "d"%string
  | [ivrm] =>
      exists state,
        value (intravenous_application db p K a) = inr state
        /\ classifies p (periodicity_in_present ivrm)
             (periodicity_in_past ivrm) state
  | _ :: _ :: _ =>
      value (intravenous_application db p K a)
      = inl (Uncaught MultipleObjectsReturned)
  end.
Proof.
  intros Hd. apply distinct_periodicities in Hd as (Hno & Hnf & Hof).
  unfold value, intravenous_application, try_except_DoesNotExist.
  cbn [run]. rewrite run_bind, run_riskymanners_get.
  destruct (records db a (INTRAVENOUS_APPLICATION K)) as [|ivrm [|r' l]];
    [reflexivity| |reflexivity].
  destruct (equals (periodicity_in_present ivrm) (NEVER p)) eqn:E1;
    destruct (equals (periodicity_in_past ivrm) (NEVER p)) eqn:E2;
    destruct (is_in (periodicity_in_present ivrm) [ONCE p; OFTEN p]) eqn:E3;
    destruct (is_in (periodicity_in_past ivrm) [ONCE p; OFTEN p]) eqn:E4;
    cbn [andb run mret M_ret fst];
    (eexists; split; [reflexivity|]);
    rewrite ?equals_Some, ?equals_not, ?is_in_pair, ?is_in_not in *;
    unfold classifies; repeat split; intros;
    first [reflexivity | exfalso; intuition congruence].
Qed.

Lemma trace_intravenous (a : Anamnesis) :
  trace (intravenous_application db p K a)
  = [Q_riskymanners_get (anamnesis_id a) (INTRAVENOUS_APPLICATION K)].
Proof.
  unfold trace, intravenous_application, try_except_DoesNotExist.
  cbn [run]. rewrite run_bind, run_riskymanners_get.
  destruct (records db a (INTRAVENOUS_APPLICATION K)) as [|ivrm [|r' l]];
    try reflexivity.
  destruct (equals (periodicity_in_present ivrm) (NEVER p)
            && equals (periodicity_in_past ivrm) (NEVER p));
    [reflexivity|].
  destruct (is_in (periodicity_in_present ivrm) [ONCE p; OFTEN p]);
    [reflexivity|].
  destruct (equals (periodicity_in_present ivrm) (NEVER p)
            && is_in (periodicity_in_past ivrm) [ONCE p; OFTEN p]);
    reflexivity.
Qed.

(** Second stage: asked for states a and b only. *)
Lemma value_sharing (a : Anamnesis) (state : string) :
  periodicity_distinct p ->
  if String.eqb state "a" || String.eqb state "b" then
    match records db a (SYRINGE_SHARING K) with
    | [] => value (syringe_sharing db p K a state)
            = inr (Some "unknown"%string)
    | [ssrm] =>
        exists answer,
          value (syringe_sharing db p K a state) = inr answer
          /\ answers p (if String.eqb state "b"
                        then periodicity_in_present ssrm
                        else periodicity_in_past ssrm) answer
    | _ :: _ :: _ =>
        value (syringe_sharing db p K a state)
        = inl (Uncaught MultipleObjectsReturned)
    end
  else value (syringe_sharing db p K a state) = inr None.
Proof.
  intros Hd. apply distinct_periodicities in Hd as (Hno & Hnf & Hof).
  unfold value, syringe_sharing, try_except_DoesNotExist.
  destruct (String.eqb state "a" || String.eqb state "b"); [|reflexivity].
  cbn [run]. rewrite run_bind, run_riskymanners_get.
  destruct (records db a (SYRINGE_SHARING K)) as [|ssrm [|r' l]];
    [reflexivity| |reflexivity].
  set (per := if String.eqb state "b" then periodicity_in_present ssrm
              else periodicity_in_past ssrm).
  destruct (is_in per [ONCE p; OFTEN p]) eqn:E1;
    destruct (equals per (NEVER p)) eqn:E2;
    cbn [run mret M_ret fst];
    (eexists; split; [reflexivity|]);
    rewrite ?equals_Some, ?equals_not, ?is_in_pair, ?is_in_not in *;
    unfold answers; repeat split; intros;
    first [reflexivity | exfalso; intuition congruence].
Qed.

Lemma trace_sharing (a : Anamnesis) (state : string) :
  trace (syringe_sharing db p K a state)
  = if String.eqb state "a" || String.eqb state "b"
    then [Q_riskymanners_get (anamnesis_id a) (SYRINGE_SHARING K)]
    else [].
Proof.
  unfold trace, syringe_sharing, try_except_DoesNotExist.
  destruct (String.eqb state "a" || String.eqb state "b"); [|reflexivity].
  cbn [run]. rewrite run_bind, run_riskymanners_get.
  destruct (records db a (SYRINGE_SHARING K)) as [|ssrm [|r' l]];
    try reflexivity.
  destruct (is_in _ _); [reflexivity|].
  destruct (equals _ _); reflexivity.
Qed.

(** *** One pass of the loop *)

Lemma run_annotate (a : Anamnesis) (log : list Query) :
  run (annotate db Encounter_first p K self a) log
  = match encounter_data db Encounter_first self !! client_id a with
    | None => (inl (Uncaught (KeyError (client_id a))), log)
    | Some d =>
        let cured := negb (income_examination_exists db (objects d)) in
        let log1 := log ++ [Q_income_examination_exists (client_id a)] in
        if String.eqb (kind self) "incidence" && cured
        then (inr None, log1)
        else
          let log2 := log1 ++ trace (intravenous_application db p K a) in
          match value (intravenous_application db p K a) with
          | inl e => (inl e, log2)
          | inr iv =>
              let log3 := log2 ++ trace (syringe_sharing db p K a iv) in
              match value (syringe_sharing db p K a iv) with
              | inl e => (inl e, log3)
              | inr ss =>
                  (inr (Some {| anamnesis := a;
                                extra_first_encounter_date :=
                                  first_encounter_date d;
                                extra_been_cured_before := cured;
                                extra_intravenous_application := iv;
                                extra_syringe_sharing := ss |}), log3)
              end
          end
    end.
Proof.
  unfold annotate. rewrite run_bind. unfold getitem at 1.
  destruct (encounter_data db Encounter_first self !! client_id a)
    as [d|] eqn:Hd; [|reflexivity].
  cbn [run mret M_ret]. rewrite run_bind. unfold getitem at 1. rewrite Hd.
  cbn [run mret M_ret]. rewrite run_bind. cbn [run query].
  destruct (String.eqb (kind self) "incidence"
            && negb (income_examination_exists db (objects d)));
    [reflexivity|].
  rewrite run_bind, (logs_only_intravenous a _).
  destruct (value (intravenous_application db p K a)) as [e|iv];
    [reflexivity|].
  rewrite run_bind, (logs_only_sharing a iv _).
  destruct (value (syringe_sharing db p K a iv)) as [e|ss]; reflexivity.
Qed.

(** *** The whole loop *)

Lemma run_annotate_all (l : list Anamnesis) (acc out : list Annotated)
    (log log' : list Query) :
  run (annotate_all db Encounter_first p K self l acc) log
  = (inr out, log') ->
  exists os,
    Forall2 (fun a o =>
               value (annotate db Encounter_first p K self a) = inr o) l os
    /\ out = acc ++ omap id os
    /\ log' = log ++ concat (map (fun a =>
                                    trace (annotate db Encounter_first
                                             p K self a)) l).
Proof.
  revert acc log. induction l as [|a l IH]; intros acc log Hrun.
  - cbn in Hrun. inversion Hrun; subst. exists [].
    split; [constructor|]. cbn. now rewrite !app_nil_r.
  - cbn [annotate_all] in Hrun.
    rewrite run_bind, (logs_only_annotate a log) in Hrun.
    destruct (value (annotate db Encounter_first p K self a)) as [e|o] eqn:Ho;
      [discriminate|].
    apply IH in Hrun as (os & Hos & Hout & Hlog).
    exists (o :: os). split; [now constructor|]. split.
    + rewrite Hout. destruct o as [r|]; cbn [omap id]; [|reflexivity].
      now rewrite <- app_assoc.
    + rewrite Hlog. cbn [map concat]. now rewrite app_assoc.
Qed.

(** Every annotated record comes from one pass over an anamnesis. *)
Lemma annotated_from_pass (l : list Anamnesis) (os : list (option Annotated))
    (r : Annotated) :
  Forall2 (fun a o =>
             value (annotate db Encounter_first p K self a) = inr o) l os ->
  r ∈ omap id os ->
  exists a, a ∈ l
            /\ value (annotate db Encounter_first p K self a)
               = inr (Some r).
Proof.
  induction 1 as [|a o l os Ha _ IH]; simpl.
  - intros Hr. now apply elem_of_nil in Hr.
  - destruct o as [r'|]; simpl.
    + rewrite elem_of_cons. intros [->|Hr].
      * exists a. split; [apply list_elem_of_here | assumption].
      * destruct (IH Hr) as (a' & Ha' & Hv). exists a'.
        split; [now apply list_elem_of_further | assumption].
    + intros Hr. destruct (IH Hr) as (a' & Ha' & Hv). exists a'.
      split; [now apply list_elem_of_further | assumption].
Qed.

(** The dictionary groups the selected encounters by person. *)
Lemma encounter_data_objects (k : Z) :
  objects (default {| first_encounter_date := date_max; objects := [] |}
             (encounter_data db Encounter_first self !! k))
  = matched_encounters db Encounter_first self k.
Proof.
  unfold encounter_data, matched_encounters.
  generalize (selected_encounters db Encounter_first self) as l. intros l.
  rewrite <- (app_nil_l l) at 2.
  assert (Hinv : forall m pre,
             (forall k, objects (default {| first_encounter_date := date_max;
                                            objects := [] |} (m !! k))
                        = List.filter (fun e => person_id e =? k) pre) ->
             objects (default {| first_encounter_date := date_max;
                                 objects := [] |}
                        (fold_left (encounter_data_step) l m !! k))
             = List.filter (fun e => person_id e =? k) (pre ++ l)).
  { induction l as [|e l IH]; intros m pre Hm; cbn [fold_left].
    - rewrite app_nil_r. apply Hm.
    - replace (pre ++ e :: l) with ((pre ++ [e]) ++ l)
        by now rewrite <- app_assoc.
      apply IH. intros k'. unfold encounter_data_step.
      rewrite List.filter_app. cbn [List.filter].
      destruct (decide (person_id e = k')) as [->|Hne].
      + rewrite lookup_insert_eq, Z.eqb_refl. cbn [default objects].
        now rewrite Hm.
      + rewrite lookup_insert_ne by assumption.
        apply Z.eqb_neq in Hne. rewrite Hne, app_nil_r. apply Hm. }
  apply Hinv. intros k'. rewrite lookup_empty. reflexivity.
Qed.

(** A record of the list, traced back to its pass. *)
Lemma annotated_inv (log log' : list Query) (out : list Annotated)
    (r : Annotated) :
  run (get_anamnesis_list db Encounter_first p K self) log
  = (inr out, log') ->
  r ∈ out ->
  exists d,
    anamnesis r ∈ _a db Encounter_first self
    /\ encounter_data db Encounter_first self !! client_id (anamnesis r)
       = Some d
    /\ extra_been_cured_before r
       = negb (income_examination_exists db (objects d))
    /\ (String.eqb (kind self) "incidence"
        && extra_been_cured_before r = false)
    /\ value (intravenous_application db p K (anamnesis r))
       = inr (extra_intravenous_application r)
    /\ value (syringe_sharing db p K (anamnesis r)
                (extra_intravenous_application r))
       = inr (extra_syringe_sharing r).
Proof.
  unfold get_anamnesis_list. rewrite !run_bind. cbn [run query].
  intros Hrun Hr.
  apply run_annotate_all in Hrun as (os & Hos & Hout & _).
  rewrite Hout, app_nil_l in Hr.
  destruct (annotated_from_pass _ _ _ Hos Hr) as (a & Ha & Hv).
  unfold value in Hv. rewrite run_annotate in Hv.
  destruct (encounter_data db Encounter_first self !! client_id a)
    as [d|] eqn:Hd; [|discriminate].
  cbn zeta in Hv.
  destruct (String.eqb (kind self) "incidence"
            && negb (income_examination_exists db (objects d))) eqn:Hskip;
    [discriminate|].
  destruct (value (intravenous_application db p K a)) as [e|iv] eqn:Hiv;
    [discriminate|].
  destruct (value (syringe_sharing db p K a iv)) as [e|ss] eqn:Hss;
    [discriminate|].
  cbn [fst] in Hv. inversion Hv; subst r. cbn.
  exists d. auto 10.
Qed.

(** *** The treated-before flag and the incidence filter *)

Lemma lookup_been_cured_before (a : Anamnesis) (d : EncounterData) :
  encounter_data db Encounter_first self !! client_id a = Some d ->
  negb (income_examination_exists db (objects d))
  = been_cured_before db Encounter_first self a.
Proof.
  intros Hd. unfold been_cured_before.
  rewrite <- encounter_data_objects, Hd. reflexivity.
Qed.

(** What one pass yields, and which queries it sends. *)
Lemma pass_outcome (a : Anamnesis) (o : option Annotated) :
  value (annotate db Encounter_first p K self a) = inr o ->
  let cured := been_cured_before db Encounter_first self a in
  match o with
  | None =>
      String.eqb (kind self) "incidence" = true /\ cured = true
      /\ forall aid b,
           Q_riskymanners_get aid b
           ∉ trace (annotate db Encounter_first p K self a)
  | Some r =>
      anamnesis r = a /\ extra_been_cured_before r = cured
      /\ String.eqb (kind self) "incidence" && cured = false
      /\ forall aid b,
           Q_riskymanners_get aid b
           ∈ trace (annotate db Encounter_first p K self a) ->
           aid = anamnesis_id a
  end.
Proof.
  unfold value, trace. rewrite run_annotate.
  destruct (encounter_data db Encounter_first self !! client_id a)
    as [d|] eqn:Hd; [|discriminate].
  cbn zeta. rewrite (lookup_been_cured_before a d Hd).
  destruct (String.eqb (kind self) "incidence"
            && been_cured_before db Encounter_first self a) eqn:Hskip.
  - cbn [fst snd]. intros [= <-].
    apply andb_true_iff in Hskip as [Hk Hc].
    split; [assumption|]. split; [assumption|].
    intros aid b Hin.
    rewrite ?elem_of_app, ?elem_of_cons, ?elem_of_nil in Hin.
    intuition discriminate.
  - destruct (value (intravenous_application db p K a)) as [e|iv] eqn:Hiv;
      [discriminate|].
    destruct (value (syringe_sharing db p K a iv)) as [e|ss] eqn:Hss;
      [discriminate|].
    cbn [fst snd]. intros [= <-]. cbn [anamnesis extra_been_cured_before].
    split; [reflexivity|]. split; [reflexivity|]. split; [reflexivity|].
    intros aid b. rewrite trace_intravenous, trace_sharing.
    destruct (String.eqb iv "a" || String.eqb iv "b");
      rewrite ?elem_of_app, ?elem_of_cons, ?elem_of_nil;
      intuition congruence.
Qed.

Lemma passes_retained (l : list Anamnesis) (os : list (option Annotated)) :
  Forall2 (fun a o =>
             value (annotate db Encounter_first p K self a) = inr o) l os ->
  map anamnesis (omap id os)
  = List.filter
      (fun a => negb (String.eqb (kind self) "incidence"
                      && been_cured_before db Encounter_first self a)) l
  /\ (forall r, r ∈ omap id os ->
        extra_been_cured_before r
        = been_cured_before db Encounter_first self (anamnesis r)
        /\ String.eqb (kind self) "incidence"
           && extra_been_cured_before r = false)
  /\ (forall aid b,
        Q_riskymanners_get aid b
        ∈ concat (map (fun a =>
                         trace (annotate db Encounter_first p K self a)) l) ->
        exists r, r ∈ omap id os /\ anamnesis_id (anamnesis r) = aid).
Proof.
  induction 1 as [|a o l os Ha _ (IHmap & IHflag & IHlog)].
  - split; [reflexivity|]. split.
    + intros r Hr. now apply elem_of_nil in Hr.
    + intros aid b Hin. now apply elem_of_nil in Hin.
  - apply pass_outcome in Ha. cbn zeta in Ha.
    cbn [map concat List.filter]. destruct o as [r|];
      [change (omap id (Some r :: os)) with (r :: omap id os)
      |change (omap id (None :: os)) with (omap id os)].
    + destruct Ha as (Hr & Hflag & Hkeep & Hlog).
      rewrite Hkeep. cbn [negb map]. split; [now rewrite Hr, IHmap|].
      split.
      * intros r' Hr'. apply elem_of_cons in Hr' as [->|Hr'];
          [|now apply IHflag].
        rewrite Hr, Hflag. auto.
      * intros aid b Hin. apply elem_of_app in Hin as [Hin|Hin].
        -- exists r. split; [apply list_elem_of_here|].
           rewrite Hr. symmetry. now apply (Hlog aid b).
        -- destruct (IHlog aid b Hin) as (r' & Hr' & Hid).
           exists r'. split; [now apply list_elem_of_further | assumption].
    + destruct Ha as (Hk & Hc & Hlog).
      assert (Hskip : String.eqb (kind self) "incidence"
                      && been_cured_before db Encounter_first self a = true)
        by now rewrite Hk, Hc.
      rewrite Hskip. cbn [negb]. split; [assumption|].
      split; [assumption|].
      intros aid b Hin. apply elem_of_app in Hin as [Hin|Hin].
      * now apply Hlog in Hin.
      * now apply IHlog in Hin.
Qed.

Lemma filter_all {A} (f : A -> bool) (l : list A) :
  (forall x, f x = true) -> List.filter f l = l.
Proof.
  intros Hf. induction l as [|x l IH]; [reflexivity|].
  cbn [List.filter]. now rewrite Hf, IH.
Qed.

(** An income examination among the matched encounters of a client. *)
Lemma been_cured_before_true (a : Anamnesis) :
  (been_cured_before db Encounter_first self a = true)
  <-> (~ exists s e,
           s ∈ Service_objects db /\ content_type s = IncomeExamination
           /\ e ∈ selected_encounters db Encounter_first self
           /\ person_id e = client_id a
           /\ encounter s = encounter_id e).
Proof.
  unfold been_cured_before, income_examination_exists, matched_encounters.
  rewrite negb_true_iff, <- not_true_iff_false, existsb_exists.
  apply not_iff_compat. split.
  - intros (s & Hs & Hcond).
    apply andb_true_iff in Hcond as [Hcls Hmem].
    apply bool_decide_eq_true in Hcls. apply mem_elem_of in Hmem.
    apply list_elem_of_fmap in Hmem as (e & He & Hin).
    apply elem_of_filter_bool in Hin as [Hin Hperson].
    apply Z.eqb_eq in Hperson.
    exists s, e. rewrite list_elem_of_In. auto.
  - intros (s & e & Hs & Hcls & He & Hperson & Henc).
    exists s. split; [now apply list_elem_of_In|].
    apply andb_true_iff. split; [now apply bool_decide_eq_true|].
    apply mem_elem_of, list_elem_of_fmap. exists e. split; [assumption|].
    apply elem_of_filter_bool. split; [assumption|]. now apply Z.eqb_eq.
Qed.

Lemma run_annotate_all_passes (l : list Anamnesis)
    (os : list (option Annotated)) :
  Forall2 (fun a o =>
             value (annotate db Encounter_first p K self a) = inr o) l os ->
  forall acc log,
    run (annotate_all db Encounter_first p K self l acc) log
    = (inr (acc ++ omap id os),
       log ++ concat (map (fun a =>
                             trace (annotate db Encounter_first p K self a))
                          l)).
Proof.
  induction 1 as [|a o l os Ha _ IH]; intros acc log.
  - cbn. now rewrite !app_nil_r.
  - cbn [annotate_all map concat].
    rewrite run_bind, (logs_only_annotate a log), Ha, IH.
    rewrite <- !app_assoc.
    destruct o as [r|]; [|reflexivity].
    change (omap id (Some r :: os)) with (r :: omap id os).
    now rewrite <- app_assoc.
Qed.

(** *** The list is produced

    With at most one record per anamnesis and behaviour no look-up is
    ambiguous, and the report returns its list. *)

Lemma value_intravenous_returns (a : Anamnesis) :
  (length (records db a (INTRAVENOUS_APPLICATION K)) <= 1)%nat ->
  exists state, value (intravenous_application db p K a) = inr state.
Proof.
  intros Hlen.
  unfold value, intravenous_application, try_except_DoesNotExist.
  cbn [run]. rewrite run_bind, run_riskymanners_get.
  destruct (records db a (INTRAVENOUS_APPLICATION K)) as [|ivrm [|r' l]];
    [eexists; reflexivity| |cbn in Hlen; lia].
  destruct (equals (periodicity_in_present ivrm) (NEVER p)
            && equals (periodicity_in_past ivrm) (NEVER p));
    [eexists; reflexivity|].
  destruct (is_in (periodicity_in_present ivrm) [ONCE p; OFTEN p]);
    [eexists; reflexivity|].
  destruct (equals (periodicity_in_present ivrm) (NEVER p)
            && is_in (periodicity_in_past ivrm) [ONCE p; OFTEN p]);
    eexists; reflexivity.
Qed.

Lemma value_sharing_returns (a : Anamnesis) (state : string) :
  (length (records db a (SYRINGE_SHARING K)) <= 1)%nat ->
  exists answer, value (syringe_sharing db p K a state) = inr answer.
Proof.
  intros Hlen.
  unfold value, syringe_sharing, try_except_DoesNotExist.
  destruct (String.eqb state "a" || String.eqb state "b");
    [|eexists; reflexivity].
  cbn [run]. rewrite run_bind, run_riskymanners_get.
  destruct (records db a (SYRINGE_SHARING K)) as [|ssrm [|r' l]];
    [eexists; reflexivity| |cbn in Hlen; lia].
  destruct (is_in _ _); [eexists; reflexivity|].
  destruct (equals _ _); eexists; reflexivity.
Qed.

Lemma annotate_returns (a : Anamnesis) :
  (forall b, (length (records db a b) <= 1)%nat) ->
  a ∈ _a db Encounter_first self ->
  exists o, value (annotate db Encounter_first p K self a) = inr o.
Proof.
  intros Hunique Ha. unfold _a in Ha.
  apply elem_of_filter_bool in Ha as [_ Hkey].
  apply bool_decide_eq_true in Hkey as [d Hd].
  unfold value. rewrite run_annotate, Hd. cbn zeta.
  destruct (String.eqb (kind self) "incidence"
            && negb (income_examination_exists db (objects d)));
    [eexists; reflexivity|].
  destruct (value_intravenous_returns a (Hunique _)) as [iv ->].
  destruct (value_sharing_returns a iv (Hunique _)) as [ss ->].
  eexists. reflexivity.
Qed.

Lemma get_anamnesis_list_returns (log : list Query) :
  (forall a b, (length (records db a b) <= 1)%nat) ->
  exists out log',
    run (get_anamnesis_list db Encounter_first p K self) log = (inr out, log').
Proof.
  intros Hunique.
  assert (Hpasses : forall l,
             (forall a, a ∈ l -> a ∈ _a db Encounter_first self) ->
             exists os,
               Forall2 (fun a o =>
                          value (annotate db Encounter_first p K self a)
                          = inr o) l os).
  { induction l as [|a l IH]; intros Hl.
    - exists []. constructor.
    - destruct (annotate_returns a (Hunique a) (Hl a (list_elem_of_here _ _)))
        as [o Ho].
      destruct IH as [os Hos].
      { intros a' Ha'. apply Hl. now apply list_elem_of_further. }
      exists (o :: os). now constructor. }
  destruct (Hpasses (_a db Encounter_first self)) as [os Hos]; [auto|].
  unfold get_anamnesis_list. rewrite run_bind. cbn [run query].
  rewrite run_bind. cbn [run query].
  rewrite (run_annotate_all_passes _ _ Hos). eauto.
Qed.

End Loop.

(** C1: the state of intravenous application of every client of the
    list is decided by the pair (periodicity in present, periodicity in
    past) of its record for that behaviour alone: (NEVER, NEVER) gives c,
    a present of ONCE or OFTEN gives b whatever the past, a present of
    NEVER with a past of ONCE or OFTEN gives a, every other pair gives d;
    a client without such a record is in state d.  Each pair has exactly
    one state. *)
Theorem intravenous_application_by_periodicities (db : DB)
    (Encounter_first : Z -> list Z -> list Encounter)
    (p : RISKY_BEHAVIOR_PERIODICITY_t) (K : RISKY_BEHAVIOR_KIND_t)
    (self : HygieneReport) (log log' : list Query) (out : list Annotated) :
  periodicity_distinct p ->
  run (get_anamnesis_list db Encounter_first p K self) log = (inr out, log') ->
  (forall r, r ∈ out ->
     match records db (anamnesis r) (INTRAVENOUS_APPLICATION K) with
     | [] => extra_intravenous_application r = "d"%string
     | [ivrm] =>
         classifies p (periodicity_in_present ivrm)
           (periodicity_in_past ivrm) (extra_intravenous_application r)
     | _ :: _ :: _ => False
     end)
  /\ (forall present past,
        exists state,
          classifies p present past state
          /\ forall state', classifies p present past state' ->
                            state' = state).
Proof.
  intros Hd Hrun. split.
  - intros r Hr.
    destruct (annotated_inv _ _ _ _ _ _ _ _ _ Hrun Hr)
      as (d & _ & _ & _ & _ & Hiv & _).
    pose proof (value_intravenous db p K (anamnesis r) Hd) as Hcases.
    destruct (records db (anamnesis r) (INTRAVENOUS_APPLICATION K))
      as [|ivrm [|r' l]].
    + congruence.
    + destruct Hcases as (state & Hstate & Hcl).
      rewrite Hiv in Hstate. injection Hstate as <-. exact Hcl.
    + congruence.
  - apply distinct_periodicities in Hd as (Hno & Hnf & Hof).
    intros present past. unfold classifies.
    destruct (decide (present = Some (NEVER p) /\ past = Some (NEVER p)))
      as [H1|H1];
    destruct (decide (present = Some (ONCE p) \/ present = Some (OFTEN p)))
      as [H2|H2];
    destruct (decide (present = Some (NEVER p)
                      /\ (past = Some (ONCE p) \/ past = Some (OFTEN p))))
      as [H3|H3];
    try (exfalso; intuition congruence).
    + exists "c"%string. split; [|pick_state].
      repeat split; intros; first [reflexivity | exfalso; tauto].
    + exists "b"%string. split; [|pick_state].
      repeat split; intros; first [reflexivity | exfalso; intuition congruence].
    + exists "a"%string. split; [|pick_state].
      repeat split; intros; first [reflexivity | exfalso; intuition congruence].
    + exists "d"%string. split; [|pick_state].
      repeat split; intros; first [reflexivity | exfalso; tauto].
Qed.

Lemma sample_periodicity_distinct : periodicity_distinct Sample.periodicity.
Proof.
  unfold periodicity_distinct.
  repeat (constructor; [rewrite list_elem_of_In; cbn; lia|]). constructor.
Defined.

Lemma intravenous_application_by_periodicities_witness :
  classifies Sample.periodicity (Some 1) (Some 2) "a".
Proof.
  refine (proj1 (intravenous_application_by_periodicities Sample.db
                   (Sample.first Sample.db) Sample.periodicity
                   Sample.behaviors (Sample.hygiene 1) [] _ _
                   sample_periodicity_distinct _)
            {| anamnesis := {| anamnesis_id := 50; client_id := 1 |};
               extra_first_encounter_date := Date 2012 2 1;
               extra_been_cured_before := true;
               extra_intravenous_application := "a";
               extra_syringe_sharing := Some "yes"%string |} _).
  - vm_compute. reflexivity.
  - apply list_elem_of_here.
Defined.

(** C2: syringe sharing is determined only for a client in state a or
    b; it is read from the periodicity in past of the client's
    syringe-sharing record in state a and from the periodicity in
    present in state b; ONCE and OFTEN give yes, NEVER gives no, any
    other value gives unknown, and so does a missing record. *)
Theorem syringe_sharing_by_state (db : DB)
    (Encounter_first : Z -> list Z -> list Encounter)
    (p : RISKY_BEHAVIOR_PERIODICITY_t) (K : RISKY_BEHAVIOR_KIND_t)
    (self : HygieneReport) (log log' : list Query) (out : list Annotated) :
  periodicity_distinct p ->
  run (get_anamnesis_list db Encounter_first p K self) log = (inr out, log') ->
  forall r, r ∈ out ->
    let state := extra_intravenous_application r in
    if String.eqb state "a" || String.eqb state "b" then
      match records db (anamnesis r) (SYRINGE_SHARING K) with
      | [] => extra_syringe_sharing r = Some "unknown"%string
      | [ssrm] =>
          answers p (if String.eqb state "b"
                     then periodicity_in_present ssrm
                     else periodicity_in_past ssrm)
            (extra_syringe_sharing r)
      | _ :: _ :: _ => False
      end
    else extra_syringe_sharing r = None.
Proof.
  intros Hd Hrun r Hr state.
  destruct (annotated_inv _ _ _ _ _ _ _ _ _ Hrun Hr)
    as (d & _ & _ & _ & _ & _ & Hss).
  pose proof (value_sharing db p K (anamnesis r) state Hd) as Hcases.
  fold state in Hss.
  destruct (String.eqb state "a" || String.eqb state "b"); [|congruence].
  destruct (records db (anamnesis r) (SYRINGE_SHARING K)) as [|ssrm [|r' l]].
  - congruence.
  - destruct Hcases as (answer & Hanswer & Hans).
    rewrite Hss in Hanswer. injection Hanswer as <-. exact Hans.
  - congruence.
Qed.

Lemma syringe_sharing_by_state_witness :
  answers Sample.periodicity (Some 3) (Some "yes"%string).
Proof.
  refine (syringe_sharing_by_state Sample.db
            (Sample.first Sample.db) Sample.periodicity
            Sample.behaviors (Sample.hygiene 1) [] _ _
            sample_periodicity_distinct _
            {| anamnesis := {| anamnesis_id := 50; client_id := 1 |};
               extra_first_encounter_date := Date 2012 2 1;
               extra_been_cured_before := true;
               extra_intravenous_application := "a";
               extra_syringe_sharing := Some "yes"%string |} _).
  - vm_compute. reflexivity.
  - apply list_elem_of_here.
Defined.

(** *** Incidence against prevalence *)

(** Two reports over the same dates and towns. *)
Lemma same_scope_encounter_data db Encounter_first (self self' : HygieneReport) :
  datetime_from self = datetime_from self' ->
  datetime_to self = datetime_to self' ->
  towns self = towns self' ->
  encounter_data db Encounter_first self
  = encounter_data db Encounter_first self'.
Proof.
  intros Hfrom Hto Htowns.
  unfold encounter_data, selected_encounters.
  now rewrite Hfrom, Hto, Htowns.
Qed.

Lemma pass_incidence db Encounter_first p K (self self' : HygieneReport)
    (a : Anamnesis) (o : option Annotated) :
  datetime_from self = datetime_from self' ->
  datetime_to self = datetime_to self' ->
  towns self = towns self' ->
  kind self = "prevalence"%string -> kind self' = "incidence"%string ->
  value (annotate db Encounter_first p K self a) = inr o ->
  exists r,
    o = Some r
    /\ value (annotate db Encounter_first p K self' a)
       = inr (if extra_been_cured_before r then None else Some r).
Proof.
  intros Hfrom Hto Htowns Hk Hk'. unfold value. rewrite !run_annotate.
  rewrite <- (same_scope_encounter_data db Encounter_first self self')
    by assumption.
  rewrite Hk, Hk'.
  destruct (encounter_data db Encounter_first self !! client_id a)
    as [d|]; [|discriminate].
  cbn zeta. cbn [String.eqb Ascii.eqb Bool.eqb andb].
  destruct (value (intravenous_application db p K a)) as [e|iv];
    [discriminate|].
  destruct (value (syringe_sharing db p K a iv)) as [e|ss];
    [discriminate|].
  cbn [fst]. intros [= <-]. eexists. split; [reflexivity|].
  cbn [extra_been_cured_before].
  destruct (negb (income_examination_exists db (objects d))); reflexivity.
Qed.

Lemma passes_incidence db Encounter_first p K (self self' : HygieneReport)
    (l : list Anamnesis) (os : list (option Annotated)) :
  datetime_from self = datetime_from self' ->
  datetime_to self = datetime_to self' ->
  towns self = towns self' ->
  kind self = "prevalence"%string -> kind self' = "incidence"%string ->
  Forall2 (fun a o =>
             value (annotate db Encounter_first p K self a) = inr o) l os ->
  exists os',
    Forall2 (fun a o =>
               value (annotate db Encounter_first p K self' a) = inr o) l os'
    /\ omap id os'
       = List.filter (fun r => negb (extra_been_cured_before r))
                     (omap id os).
Proof.
  intros Hfrom Hto Htowns Hk Hk'.
  induction 1 as [|a o l os Ha _ (os' & Hos' & Hfilter)].
  - exists []. split; [constructor | reflexivity].
  - destruct (pass_incidence _ _ _ _ _ _ _ _ Hfrom Hto Htowns Hk Hk' Ha)
      as (r & -> & Hr).
    eexists (_ :: os'). split; [constructor; [exact Hr | exact Hos']|].
    change (omap id (Some r :: os)) with (r :: omap id os).
    cbn [List.filter].
    destruct (extra_been_cured_before r); cbn [negb].
    + change (omap id (None :: os')) with (omap id os'). exact Hfilter.
    + change (omap id (Some r :: os')) with (r :: omap id os').
      now rewrite Hfilter.
Qed.

(** C6: every record of the list carries the treated-before flag of
    its client; in incidence mode the list holds exactly the clients
    with anamnesis whose flag is false, in their order, and in prevalence
    mode all of them; the incidence list is the prevalence list without
    the records whose flag is true. *)
Theorem incidence_retains_not_cured_before (db : DB)
    (Encounter_first : Z -> list Z -> list Encounter)
    (p : RISKY_BEHAVIOR_PERIODICITY_t) (K : RISKY_BEHAVIOR_KIND_t)
    (self : HygieneReport) (log log' : list Query) (out : list Annotated) :
  run (get_anamnesis_list db Encounter_first p K self) log = (inr out, log') ->
  (forall r, r ∈ out ->
     extra_been_cured_before r
     = been_cured_before db Encounter_first self (anamnesis r))
  /\ (kind self = "incidence"%string ->
      map anamnesis out
      = List.filter
          (fun a => negb (been_cured_before db Encounter_first self a))
          (_a db Encounter_first self)
      /\ forall r, r ∈ out -> extra_been_cured_before r = false)
  /\ (kind self = "prevalence"%string ->
      map anamnesis out = _a db Encounter_first self
      /\ forall self',
           datetime_from self = datetime_from self' ->
           datetime_to self = datetime_to self' ->
           towns self = towns self' ->
           kind self' = "incidence"%string ->
           exists log'',
             run (get_anamnesis_list db Encounter_first p K self') log
             = (inr (List.filter (fun r => negb (extra_been_cured_before r))
                                 out), log'')).
Proof.
  unfold get_anamnesis_list. rewrite !run_bind. cbn [run query].
  intros Hrun.
  apply run_annotate_all in Hrun as (os & Hos & Hout & _).
  rewrite app_nil_l in Hout. subst out.
  destruct (passes_retained _ _ _ _ _ _ _ Hos) as (Hmap & Hflag & _).
  split; [|split].
  - intros r Hr. now apply Hflag.
  - intros Hk. rewrite Hk in *. cbn [String.eqb Ascii.eqb Bool.eqb andb] in *.
    split; [exact Hmap|]. intros r Hr. now apply Hflag.
  - intros Hk. split.
    + rewrite Hmap, Hk. cbn [String.eqb Ascii.eqb Bool.eqb andb negb].
      now apply filter_all.
    + intros self' Hfrom Hto Htowns Hk'.
      destruct (passes_incidence _ _ _ _ _ _ _ _ Hfrom Hto Htowns Hk Hk' Hos)
        as (os' & Hos' & Hfilter).
      eexists. rewrite run_bind. cbn [run query].
      rewrite run_bind. cbn [run query].
      assert (Ha : _a db Encounter_first self' = _a db Encounter_first self).
      { unfold _a.
        now rewrite (same_scope_encounter_data db Encounter_first self self'). }
      rewrite Ha, (run_annotate_all_passes _ _ _ _ _ _ _ Hos').
      rewrite app_nil_l, Hfilter. reflexivity.
Qed.

Lemma incidence_retains_not_cured_before_witness :
  map anamnesis
    [{| anamnesis := {| anamnesis_id := 51; client_id := 2 |};
        extra_first_encounter_date := Date 2012 2 3;
        extra_been_cured_before := false;
        extra_intravenous_application := "b";
        extra_syringe_sharing := Some "no"%string |}]
  = List.filter
      (fun a => negb (been_cured_before Sample.db (Sample.first Sample.db)
                        (Sample.hygiene 2) a))
      (_a Sample.db (Sample.first Sample.db) (Sample.hygiene 2)).
Proof.
  refine (proj1 (proj1 (proj2 (incidence_retains_not_cured_before Sample.db
                   (Sample.first Sample.db) Sample.periodicity
                   Sample.behaviors (Sample.hygiene 2) [] _ _ _)) eq_refl)).
  vm_compute. reflexivity.
Defined.

(** *** Filter and classification *)

(** C7, counterexample: in incidence mode client 1 of the sample store
    was treated before and is left out.  The loop of the report sends no
    risky-manners query for its anamnesis (50); the loop that classifies
    first and filters afterwards does.  The two lists are the same, the
    runs are not. *)
Lemma incidence_filter_not_after_classification :
  let code :=
    run (get_anamnesis_list Sample.db (Sample.first Sample.db)
           Sample.periodicity Sample.behaviors (Sample.hygiene 2)) [] in
  let worded :=
    run (get_anamnesis_list_classify_then_filter Sample.db
           (Sample.first Sample.db) Sample.periodicity Sample.behaviors
           (Sample.hygiene 2)) [] in
  fst code = fst worded
  /\ Q_riskymanners_get 50 1 ∈ snd worded
  /\ (Q_riskymanners_get 50 1 ∉ snd code)
  /\ code <> worded.
Proof.
  intros code worded. vm_compute in code, worded. subst code worded.
  cbn [fst snd]. split; [reflexivity|]. split; [|split].
  - rewrite !elem_of_cons. auto 10.
  - rewrite !elem_of_cons, elem_of_nil. intuition discriminate.
  - discriminate.
Qed.

(** C7, amended: every record of the list carries a treated-before
    flag that is true iff no income-examination service exists among the
    matched encounters of its client; in incidence mode only records
    whose flag is false are kept; and the filter comes before the
    classification: a risky-manners query is sent only for an anamnesis
    that is kept. *)
Theorem been_cured_before_flag_and_filter (db : DB)
    (Encounter_first : Z -> list Z -> list Encounter)
    (p : RISKY_BEHAVIOR_PERIODICITY_t) (K : RISKY_BEHAVIOR_KIND_t)
    (self : HygieneReport) (log log' : list Query) (out : list Annotated) :
  run (get_anamnesis_list db Encounter_first p K self) log = (inr out, log') ->
  (forall r, r ∈ out ->
     (extra_been_cured_before r = true)
     <-> (~ exists s e,
              s ∈ Service_objects db /\ content_type s = IncomeExamination
              /\ e ∈ selected_encounters db Encounter_first self
              /\ person_id e = client_id (anamnesis r)
              /\ encounter s = encounter_id e))
  /\ (kind self = "incidence"%string ->
      forall r, r ∈ out -> extra_been_cured_before r = false)
  /\ (exists queries,
        log' = log ++ queries
        /\ forall aid b,
             Q_riskymanners_get aid b ∈ queries ->
             exists r, r ∈ out /\ anamnesis_id (anamnesis r) = aid).
Proof.
  unfold get_anamnesis_list. rewrite !run_bind. cbn [run query].
  intros Hrun.
  apply run_annotate_all in Hrun as (os & Hos & Hout & Hlog).
  rewrite app_nil_l in Hout. subst out.
  destruct (passes_retained _ _ _ _ _ _ _ Hos) as (_ & Hflag & Hqueries).
  split; [|split].
  - intros r Hr. destruct (Hflag r Hr) as [-> _].
    apply been_cured_before_true.
  - intros Hk r Hr. destruct (Hflag r Hr) as [_ Hkeep].
    rewrite Hk in Hkeep. exact Hkeep.
  - eexists. split.
    + rewrite Hlog, <- !app_assoc. reflexivity.
    + intros aid b Hin.
      rewrite !elem_of_app, !list_elem_of_singleton in Hin.
      destruct Hin as [Hin|[Hin|Hin]]; try discriminate.
      now apply (Hqueries aid b).
Qed.

Lemma been_cured_before_flag_and_filter_witness :
  exists queries,
    [Q_encounters; Q_anamnesis; Q_income_examination_exists 1;
     Q_income_examination_exists 2; Q_riskymanners_get 51 1;
     Q_riskymanners_get 51 2] = [] ++ queries
    /\ forall aid b,
         Q_riskymanners_get aid b ∈ queries ->
         exists r,
           r ∈ [{| anamnesis := {| anamnesis_id := 51; client_id := 2 |};
                   extra_first_encounter_date := Date 2012 2 3;
                   extra_been_cured_before := false;
                   extra_intravenous_application := "b";
                   extra_syringe_sharing := Some "no"%string |}]
           /\ anamnesis_id (anamnesis r) = aid.
Proof.
  refine (proj2 (proj2 (been_cured_before_flag_and_filter Sample.db
                   (Sample.first Sample.db) Sample.periodicity
                   Sample.behaviors (Sample.hygiene 2) [] _ _ _))).
  vm_compute. reflexivity.
Defined.

End HygieneFacts.
